(** * wa_llm: routing, on-demand and scheduled summarization, embedding batches

    A shallow embedding of
      - [src/handler/router.py]                       (module [Router]),
      - [src/summarize_and_send_to_groups/__init__.py] (module [SummarizeAndSendToGroups]),
      - [src/utils/azure_openai_embed_text.py]        (module [AzureOpenAIEmbedText]).

    The coroutines are written in a state-and-exception monad.  The state
    is the [world]: the two tables the code reads and writes, and the
    chronological trace of every call made to a collaborator (transport,
    persistence session, language model, logger, sleep).  What a
    collaborator answers is not decided by this code, so each answer is
    read from an oracle of the environment [env], which sees the whole
    trace so far: a theorem quantified over [env] holds for every
    behaviour of the collaborators. *)

From Stdlib Require Import String Ascii List ZArith QArith Lia Bool Arith.
From Stdlib Require Import Sorting.Sorted Sorting.Permutation.
From Stdlib Require Import Lqa.
Import ListNotations.

Local Open Scope string_scope.
Local Open Scope Z_scope.

(** ** Python strings *)

(** [str.lower()], on the ASCII letters (the two markers searched for
    below are ASCII). *)
Definition lower_ascii (c : ascii) : ascii :=
  let n := nat_of_ascii c in
  if (Nat.leb 65 n && Nat.leb n 90)%bool then ascii_of_nat (n + 32) else c.

Fixpoint lower (s : string) : string :=
  match s with
  | EmptyString => EmptyString
  | String c rest => String (lower_ascii c) (lower rest)
  end.

(** [needle in hay]. *)
Fixpoint contains (needle hay : string) : bool :=
  if String.prefix needle hay then true
  else match hay with
       | EmptyString => false
       | String _ rest => contains needle rest
       end.

(** [s[:n]]. *)
Definition take_str (n : nat) (s : string) : string := String.substring 0 n s.

Definition newline : string := String (ascii_of_nat 10) EmptyString.

(** [str(x)] and [x or default] for an optional string. *)
Definition str_opt (o : option string) : string :=
  match o with Some s => s | None => "None" end.

Definition or_default (o : option string) (d : string) : string :=
  match o with
  | Some EmptyString | None => d
  | Some s => s
  end.

(** ** Exceptions

    [ModelHTTPError body] carries [str(e.body)]; [Exception msg] is any
    other subclass of [Exception].  Exceptions outside [Exception]
    (cancellation, interpreter exit) are not raised by the collaborators
    and are not modelled. *)
Inductive exn : Type :=
| ModelHTTPError (body : string)
| Exception (msg : string).

Definition str_exn (e : exn) : string :=
  match e with
  | ModelHTTPError body => body
  | Exception msg => msg
  end.

(** The test both modules apply to a [ModelHTTPError]:
    ["content_filter" in str(e.body).lower() or
     "responsibleaipolicyviolation" in str(e.body).lower()]. *)
Definition content_filtered (body : string) : bool :=
  (contains "content_filter" (lower body)
   || contains "responsibleaipolicyviolation" (lower body))%bool.

(** ** Data model ([models], as far as the code reads and writes it) *)

Record Message : Type := {
  message_id : string;
  chat_jid : string;
  group_jid_of : option string;
  sender_jid : string;
  text : option string;
  timestamp : Z
}.

Record Group : Type := {
  group_jid : string;
  group_name : option string;
  managed : bool;
  last_summary_sync : Z
}.

Definition set_last_summary_sync (g : Group) (t : Z) : Group :=
  {| group_jid := group_jid g;
     group_name := group_name g;
     managed := managed g;
     last_summary_sync := t |}.

(** [class IntentEnum(str, Enum)] *)
Module IntentEnum.
Inductive t : Type := summarize | ask_question | about | other.
End IntentEnum.

(** Timestamps are microseconds; [timedelta(hours=24)]. *)
Definition hours_24 : Z := 24 * 3600 * 1000000.

(** ** Collaborator calls *)

Inductive level : Type := DEBUG | INFO | WARNING | ERROR.

(** The three agents the code builds (their system prompts are fixed
    texts; the scheduled one embeds the group's name). *)
Inductive agent : Type :=
| RouteAgent
| ChatSummaryAgent
| GroupSummaryAgent (name : string).

(** The three [select] statements the code executes. *)
Inductive statement : Type :=
| SelectChatMessages (chat : string) (since : Z) (limit : nat)
| SelectGroupMessages (group : string) (since : Z) (not_sender : string)
| SelectManagedGroups.

Inductive event : Type :=
| GetMyJid
| Exec (stmt : statement)
| AgentRun (a : agent) (user_prompt : string)
| Sleep (seconds : Q)
| SendMessage (phone message : string) (reply_to : option string)
| GetRelatedCommunityGroups (group : string)
| Commit (g : Group)
| KnowledgeBase (message : string)
| EmbeddingsCreate (model : string) (input : list string)
| Log (l : level) (msg : string).

(** What the collaborators answer.  Every oracle sees the trace so far. *)
Record env : Type := {
  chat2text : list Message -> string;
  jid_user : string -> string;
  datetime_now : list event -> Z;
  my_jid_answer : list event -> exn + string;
  exec_answer : list event -> statement -> option exn;
  route_answer : list event -> string -> exn + IntentEnum.t;
  run_answer : list event -> agent -> string -> exn + string;
  send_answer : list event -> string -> string -> option exn;
  community_answer : list event -> Group -> exn + list Group;
  commit_answer : list event -> Group -> option exn;
  knowledge_base_answer : list event -> Message -> option exn;
  random_unit : list event -> Q
}.

Record world : Type := {
  messages : list Message;
  groups : list Group;
  trace : list event
}.

Definition record (e : event) (w : world) : world :=
  {| messages := messages w; groups := groups w; trace := trace w ++ [e] |}.

(** [session.add(g); session.commit()] on the groups table. *)
Definition persist (g' : Group) (gs : list Group) : list Group :=
  map (fun g => if String.eqb (group_jid g) (group_jid g') then g' else g) gs.

Definition store_group (g : Group) (w : world) : world :=
  {| messages := messages w; groups := persist g (groups w); trace := trace w |}.

(** ** The monad of coroutines *)

Definition M (A : Type) : Type := world -> (exn + A) * world.

Definition ret {A} (a : A) : M A := fun w => (inr a, w).

Definition raise {A} (e : exn) : M A := fun w => (inl e, w).

Definition bind {A B} (m : M A) (k : A -> M B) : M B :=
  fun w => match m w with
           | (inr a, w') => k a w'
           | (inl e, w') => (inl e, w')
           end.

(** [try: m except ... as e: h e] *)
Definition try_except {A} (m : M A) (h : exn -> M A) : M A :=
  fun w => match m w with
           | (inr a, w') => (inr a, w')
           | (inl e, w') => h e w'
           end.

(** [try: m finally: f]: [f] runs on both exits; an exception of [f]
    replaces the outcome of [m]. *)
Definition try_finally {A} (m : M A) (f : M unit) : M A :=
  fun w => match m w with
           | (r, w') => match f w' with
                        | (inr _, w'') => (r, w'')
                        | (inl e, w'') => (inl e, w'')
                        end
           end.

(** The outcome of [m] as a value (to branch on it as [try]/[except]
    followed by more code does). *)
Definition attempt {A} (m : M A) : M (exn + A) :=
  fun w => match m w with (r, w') => (inr r, w') end.

Declare Scope coroutine_scope.
Delimit Scope coroutine_scope with coroutine.
Notation "x <- m ;; k" := (bind m (fun x => k))
  (at level 61, m at next level, right associativity) : coroutine_scope.
Notation "m ;; k" := (bind m (fun _ => k))
  (at level 61, right associativity) : coroutine_scope.
Local Open Scope coroutine_scope.

(** [for x in xs: body x] *)
Fixpoint for_each {A} (xs : list A) (body : A -> M unit) : M unit :=
  match xs with
  | [] => ret tt
  | x :: rest => body x ;; for_each rest body
  end.

(** ** Primitive calls *)

Section Calls.
Variable E : env.

Definition emit (e : event) : M unit := fun w => (inr tt, record e w).

Definition log (l : level) (msg : string) : M unit := emit (Log l msg).

Definition now : M Z := fun w => (inr (datetime_now E (trace w)), w).

Definition get_my_jid : M string :=
  fun w => (my_jid_answer E (trace w), record GetMyJid w).

(** [session.exec(stmt)]: the rows are computed by [rows] from the table. *)
Definition exec {A} (stmt : statement) (rows : world -> A) : M A :=
  fun w => match exec_answer E (trace w) stmt with
           | Some e => (inl e, record (Exec stmt) w)
           | None => (inr (rows w), record (Exec stmt) w)
           end.

Definition agent_run (a : agent) (user_prompt : string) : M string :=
  fun w => (run_answer E (trace w) a user_prompt, record (AgentRun a user_prompt) w).

Definition route_run (user_prompt : string) : M IntentEnum.t :=
  fun w => (route_answer E (trace w) user_prompt,
            record (AgentRun RouteAgent user_prompt) w).

Definition send_message (phone message : string) (reply_to : option string) : M unit :=
  fun w => match send_answer E (trace w) phone message with
           | Some e => (inl e, record (SendMessage phone message reply_to) w)
           | None => (inr tt, record (SendMessage phone message reply_to) w)
           end.

Definition get_related_community_groups (g : Group) : M (list Group) :=
  fun w => (community_answer E (trace w) g,
            record (GetRelatedCommunityGroups (group_jid g)) w).

Definition commit (g : Group) : M unit :=
  fun w => match commit_answer E (trace w) g with
           | Some e => (inl e, record (Commit g) w)
           | None => (inr tt, record (Commit g) (store_group g w))
           end.

Definition sleep (seconds : Q) : M unit := emit (Sleep seconds).

Definition random : M Q := fun w => (inr (random_unit E (trace w)), w).

Definition ask_knowledge_base (m : Message) : M unit :=
  fun w => match knowledge_base_answer E (trace w) m with
           | Some e => (inl e, record (KnowledgeBase (message_id m)) w)
           | None => (inr tt, record (KnowledgeBase (message_id m)) w)
           end.
End Calls.

(** ** Queries *)

(** [ORDER BY timestamp DESC], as a stable insertion sort: rows of equal
    timestamp keep the table's order. *)
Fixpoint insert_desc (m : Message) (sorted : list Message) : list Message :=
  match sorted with
  | [] => [m]
  | x :: rest =>
      if timestamp x <? timestamp m then m :: x :: rest
      else x :: insert_desc m rest
  end.

Fixpoint order_by_desc_timestamp (rows : list Message) : list Message :=
  match rows with
  | [] => []
  | m :: rest => insert_desc m (order_by_desc_timestamp rest)
  end.

(** [Message.group_jid == jid] on a nullable column. *)
Definition is_jid (o : option string) (jid : string) : bool :=
  match o with
  | Some j => String.eqb j jid
  | None => false
  end.

(** The [where] clauses of [Router.summarize]:
    [Message.chat_jid == chat] and [Message.timestamp >= since]. *)
Definition in_chat_since (chat : string) (since : Z) (m : Message) : bool :=
  (String.eqb (chat_jid m) chat && (since <=? timestamp m))%bool.

(** The [where] clauses of [summarize_and_send_to_group]:
    [Message.group_jid == group], [Message.timestamp >= since] and
    [Message.sender_jid != me]. *)
Definition in_group_since_not_by (group : string) (since : Z) (me : string)
    (m : Message) : bool :=
  (is_jid (group_jid_of m) group
   && (since <=? timestamp m)
   && negb (String.eqb (sender_jid m) me))%bool.

(** [src/handler/router.py] *)
Module Router.
Section Router.
Variable E : env.

(** [Router._route].  The agent is built before the [try]; building it
    makes no call. *)
Definition _route (message : string) : M IntentEnum.t :=
  try_except
    (route_run E message)
    (fun e =>
       match e with
       | ModelHTTPError body =>
           if content_filtered body then
             log WARNING ("Content filtered for message routing. Message preview: "
                          ++ take_str 50 message ++ "...") ;;
             log DEBUG ("Content filter details: " ++ body) ;;
             ret IntentEnum.other
           else
             log ERROR ("Model HTTP error in routing: " ++ str_exn e) ;;
             raise e
       | Exception msg =>
           log ERROR ("Unexpected error in message routing: " ++ msg) ;;
           ret IntentEnum.other
       end).

(** The statement of [Router.summarize], as a function of the table. *)
Definition chat_messages_since (chat : string) (since : Z) (limit : nat)
    (table : list Message) : list Message :=
  firstn limit
    (order_by_desc_timestamp (filter (in_chat_since chat since) table)).

Definition nothing_to_summarize : string :=
  "No messages found from today to summarize.".

Definition policy_apology : string :=
  "I'm sorry, but I can't summarize today's messages due to content policy restrictions. Some messages may contain content that can't be processed.".

Definition http_apology : string :=
  "I encountered an error while trying to summarize today's messages. Please try again later.".

Definition unexpected_apology : string :=
  "I encountered an unexpected error while summarizing. Please try again later.".

(** The f-string given to the agent of [Router.summarize]. *)
Definition user_prompt (message : Message) (msgs : list Message) : string :=
  "@" ++ jid_user E (sender_jid message) ++ ": "
  ++ str_opt (text message) ++ newline ++ newline
  ++ " # History:" ++ newline ++ " " ++ chat2text E msgs.

(** [Router.summarize] *)
Definition summarize (message : Message) : M unit :=
  t <- now E ;;
  let time_24_hours_ago := t - hours_24 in
  let stmt := SelectChatMessages (chat_jid message) time_24_hours_ago 30 in
  msgs <- exec E stmt
            (fun w => chat_messages_since (chat_jid message) time_24_hours_ago 30
                        (messages w)) ;;
  match msgs with
  | [] =>
      send_message E (chat_jid message) nothing_to_summarize
                   (Some (message_id message))
  | _ :: _ =>
      try_except
        (response <- agent_run E ChatSummaryAgent (user_prompt message msgs) ;;
         send_message E (chat_jid message) response (Some (message_id message)))
        (fun e =>
           match e with
           | ModelHTTPError body =>
               if content_filtered body then
                 log WARNING ("Content filtered during summarization for chat "
                              ++ chat_jid message) ;;
                 log DEBUG ("Content filter details: " ++ body) ;;
                 send_message E (chat_jid message) policy_apology
                              (Some (message_id message))
               else
                 log ERROR ("Model HTTP error in summarization: " ++ str_exn e) ;;
                 send_message E (chat_jid message) http_apology
                              (Some (message_id message))
           | Exception msg =>
               log ERROR ("Unexpected error in summarization: " ++ msg) ;;
               send_message E (chat_jid message) unexpected_apology
                            (Some (message_id message))
           end)
  end.

Definition about_text : string :=
  "I'm an open-source bot - " ++ newline
  ++ "I can help you catch up on the chat messages and answer questions based on the group's knowledge.".

Definition default_response_text : string :=
  "I'm sorry, but I dont think this is something I can help with right now ðŸ˜…." ++ newline
  ++ " I can help catch up on the chat messages or answer questions based on the group's knowledge.".

(** [Router.about] *)
Definition about (message : Message) : M unit :=
  send_message E (chat_jid message) about_text (Some (message_id message)).

(** [Router.default_response] *)
Definition default_response (message : Message) : M unit :=
  send_message E (chat_jid message) default_response_text (Some (message_id message)).

(** [Router.__call__] *)
Definition __call__ (message : Message) : M unit :=
  match text message with
  | None =>
      log WARNING ("Received message with no text from " ++ sender_jid message)
  | Some txt =>
      route <- _route txt ;;
      match route with
      | IntentEnum.summarize => summarize message
      | IntentEnum.ask_question => ask_knowledge_base E message
      | IntentEnum.about => about message
      | IntentEnum.other => default_response message
      end
  end.
End Router.
End Router.

(** ** tenacity's retry policy

    [@retry(wait=wait_random_exponential(min=1, max=30),
            stop=stop_after_attempt(6),
            before_sleep=before_sleep_log(logger, logging.DEBUG),
            reraise=True)]

    The decorator comes from the tenacity library; its loop and its wait
    strategy are written here as the library defines them, on rationals
    for the seconds.  [random_unit] is the draw behind [random.uniform]:
    [random.uniform(a, b) = a + (b - a) * random.random()]. *)
Module Tenacity.
Section Tenacity.
Variable E : env.

Fixpoint pow2 (n : nat) : Q :=
  match n with
  | O => 1%Q
  | S n' => (2 * pow2 n')%Q
  end.

Definition Qmax (a b : Q) : Q := if Qle_bool a b then b else a.
Definition Qmin (a b : Q) : Q := if Qle_bool a b then a else b.

(** [wait_exponential(multiplier=1, max, exp_base=2, min)]:
    [max(max(0, min), min(multiplier * exp_base ** (attempt_number - 1), max))] *)
Definition wait_exponential (min_ max_ : Q) (attempt_number : nat) : Q :=
  Qmax (Qmax 0 min_) (Qmin (1 * pow2 (attempt_number - 1)) max_).

(** [wait_random_exponential(min, max)]: [random.uniform(min, high)] with
    [high] the exponential wait. *)
Definition wait_random_exponential (min_ max_ : Q) (attempt_number : nat) (u : Q) : Q :=
  let high := wait_exponential min_ max_ attempt_number in
  (min_ + (high - min_) * u)%Q.

(** The retry loop.  [left] is [max_attempt_number - attempt_number]:
    [stop_after_attempt] stops when it is 0, and [reraise=True] then
    raises the exception of the last attempt itself. *)
Fixpoint retrying {A} (left attempt_number : nat) (fn : M A) : M A :=
  try_except fn
    (fun e =>
       match left with
       | O => raise e
       | S left' =>
           u <- random E ;;
           let seconds := wait_random_exponential 1 30 attempt_number u in
           log DEBUG ("Retrying after exception: " ++ str_exn e) ;;
           sleep seconds ;;
           retrying left' (S attempt_number) fn
       end).

Definition max_attempt_number : nat := 6.

Definition retry {A} (fn : M A) : M A :=
  retrying (max_attempt_number - 1) 1 fn.
End Tenacity.
End Tenacity.

(** [src/summarize_and_send_to_groups/__init__.py] *)
Module SummarizeAndSendToGroups.
Section SummarizeAndSendToGroups.
Variable E : env.

(** The body of [summarize]: one language-model call. *)
Definition summarize_body (group_name : string) (msgs : list Message) : M string :=
  agent_run E (GroupSummaryAgent group_name) (chat2text E msgs).

(** [summarize], with its decorator. *)
Definition summarize (group_name : string) (msgs : list Message) : M string :=
  Tenacity.retry E (summarize_body group_name msgs).

(** The statement of [summarize_and_send_to_group], as a function of the
    table. *)
Definition group_messages_since (group : string) (since : Z) (me : string)
    (table : list Message) : list Message :=
  order_by_desc_timestamp (filter (in_group_since_not_by group since me) table).

(** The [try] block of the sends. *)
Definition send_to_all (group : Group) (response : string) : M unit :=
  send_message E (group_jid group) response None ;;
  community_groups <- get_related_community_groups E group ;;
  for_each community_groups
    (fun cg => send_message E (group_jid cg) response None).

(** The [try]/[except] around the sends. *)
Definition send_or_log (group : Group) (response : string) : M unit :=
  try_except
    (send_to_all group response)
    (fun e => log ERROR ("Error sending message to group "
                         ++ str_opt (group_name group) ++ ": " ++ str_exn e)).

(** The [finally] block. *)
Definition update_last_summary_sync (group : Group) : M unit :=
  t <- now E ;;
  commit E (set_last_summary_sync group t).

(** [summarize_and_send_to_group] *)
Definition summarize_and_send_to_group (group : Group) : M unit :=
  me <- get_my_jid E ;;
  msgs <- exec E (SelectGroupMessages (group_jid group) (last_summary_sync group) me)
            (fun w => group_messages_since (group_jid group) (last_summary_sync group)
                        me (messages w)) ;;
  if (length msgs <? 15)%nat then
    log INFO ("Not enough messages to summarize in group "
              ++ str_opt (group_name group))
  else
    r <- attempt (summarize (or_default (group_name group) "group") msgs) ;;
    match r with
    | inl (ModelHTTPError body) =>
        if content_filtered body then
          log WARNING ("Content filtered during automatic summarization for group "
                       ++ str_opt (group_name group)) ;;
          log DEBUG ("Content filter details: " ++ body)
        else
          log ERROR ("Model HTTP error summarizing group "
                     ++ str_opt (group_name group) ++ ": " ++ body)
    | inl (Exception msg) =>
        log ERROR ("Error summarizing group "
                   ++ str_opt (group_name group) ++ ": " ++ msg)
    | inr response =>
        try_finally
          (send_or_log group response)
          (update_last_summary_sync group)
    end.

(** [asyncio.gather] over the tasks, with [return_exceptions=True].  The
    units are run one after the other, in the order of the list: the
    interleaving of their suspension points is not modelled. *)
Fixpoint gather {A} (tasks : list (M A)) : M (list (exn + A)) :=
  match tasks with
  | [] => ret []
  | task :: rest =>
      r <- attempt task ;;
      rs <- gather rest ;;
      ret (r :: rs)
  end.

Definition log_error (r : exn + unit) : M unit :=
  match r with
  | inl e => log ERROR ("Error syncing group: " ++ str_exn e)
  | inr _ => ret tt
  end.

(** [summarize_and_send_to_groups] *)
Definition summarize_and_send_to_groups : M unit :=
  gs <- exec E SelectManagedGroups (fun w => filter managed (groups w)) ;;
  errs <- gather (map summarize_and_send_to_group gs) ;;
  for_each errs log_error.
End SummarizeAndSendToGroups.
End SummarizeAndSendToGroups.

(** [src/utils/azure_openai_embed_text.py] *)
Module AzureOpenAIEmbedText.
Section AzureOpenAIEmbedText.
(** An embedding vector ([List[float]]) and the provider's answers. *)
Variable vector : Type.
Variable create_answer : list event -> string -> list string -> exn + list vector.

(** [embedding_client.embeddings.create(model=..., input=...)], with
    [[e.embedding for e in response.data]] taken from the answer. *)
Definition embeddings_create (model : string) (input : list string) : M (list vector) :=
  fun w => (create_answer (trace w) model input, record (EmbeddingsCreate model input) w).

(** [range(start, stop, step)] for a positive step; it has at most
    [stop] elements, which is the fuel. *)
Fixpoint range_from (fuel start stop step : nat) : list nat :=
  match fuel with
  | O => []
  | S fuel' =>
      if (start <? stop)%nat then start :: range_from fuel' (start + step) stop step
      else []
  end.

Definition range (start stop step : nat) : list nat :=
  range_from stop start stop step.

(** [l[i:j]] *)
Definition slice {A} (l : list A) (i j : nat) : list A :=
  firstn (j - i) (skipn i l).

(** [for x in xs: acc = body(acc, x)] *)
Fixpoint for_acc {A S} (xs : list A) (acc : S) (body : S -> A -> M S) : M S :=
  match xs with
  | [] => ret acc
  | x :: rest => acc' <- body acc x ;; for_acc rest acc' body
  end.

Definition batch_size : nat := 100.

(** The body of the loop of [azure_openai_embed_text]. *)
Definition embed_batch (input : list string) (model_name : string)
    (embeddings : list vector) (i : nat) : M (list vector) :=
  let batch := slice input i (i + batch_size) in
  batch_embeddings <- embeddings_create model_name batch ;;
  ret (embeddings ++ batch_embeddings)%list.

(** [azure_openai_embed_text] *)
Definition azure_openai_embed_text (input : list string) (model_name : string)
  : M (list vector) :=
  for_acc (range 0 (length input) batch_size) [] (embed_batch input model_name).
End AzureOpenAIEmbedText.
End AzureOpenAIEmbedText.

(** ** Worlds used to state results *)

(** [w] after the calls [evs], the tables untouched. *)
Definition extend (w : world) (evs : list event) : world :=
  {| messages := messages w; groups := groups w; trace := trace w ++ evs |}.

(** The calls made since [w]: what [w'] has after the trace of [w]. *)
Definition calls_since (w w' : world) : list event :=
  skipn (length (trace w)) (trace w').

(** Kinds of calls. *)
Definition is_agent_run (e : event) : bool :=
  match e with AgentRun _ _ => true | _ => false end.

Definition is_sleep (e : event) : bool :=
  match e with Sleep _ => true | _ => false end.

Definition is_send (e : event) : bool :=
  match e with SendMessage _ _ _ => true | _ => false end.

Definition is_commit (e : event) : bool :=
  match e with Commit _ => true | _ => false end.

(** The calls that leave the process: to the transport, the persistence
    session, the language model or the embedding provider.  Logging and
    sleeping stay inside it. *)
Definition is_remote_call (e : event) : bool :=
  match e with
  | Log _ _ | Sleep _ => false
  | _ => true
  end.

Definition count (p : event -> bool) (calls : list event) : nat :=
  length (filter p calls).

(** A sleep lasts between [lo] and [hi] seconds. *)
Definition sleep_within (lo hi : Q) (e : event) : Prop :=
  match e with
  | Sleep seconds => (lo <= seconds /\ seconds <= hi)%Q
  | _ => True
  end.

(** The statement [summarize_and_send_to_group] executes for [g] when the
    transport says the assistant is [me]. *)
Definition group_statement (g : Group) (me : string) : statement :=
  SelectGroupMessages (group_jid g) (last_summary_sync g) me.

(** The rows it gets from [w]. *)
Definition unseen (g : Group) (me : string) (w : world) : list Message :=
  SummarizeAndSendToGroups.group_messages_since
    (group_jid g) (last_summary_sync g) me (messages w).

(** What the run logs when the generation raised [e]. *)
Definition generation_failure_log (g : Group) (e : exn) : list event :=
  match e with
  | ModelHTTPError body =>
      if content_filtered body then
        [Log WARNING ("Content filtered during automatic summarization for group "
                      ++ str_opt (group_name g));
         Log DEBUG ("Content filter details: " ++ body)]
      else
        [Log ERROR ("Model HTTP error summarizing group "
                    ++ str_opt (group_name g) ++ ": " ++ body)]
  | Exception msg =>
      [Log ERROR ("Error summarizing group " ++ str_opt (group_name g) ++ ": " ++ msg)]
  end.

(** The send of [response] to the group [cg]. *)
Definition send_event (response : string) (cg : Group) : event :=
  SendMessage (group_jid cg) response None.

(** The sends of [response] to [cgs], made one after the other from the
    trace [tr], all succeed. *)
Fixpoint all_sent (E : env) (response : string) (tr : list event) (cgs : list Group)
  : Prop :=
  match cgs with
  | [] => True
  | cg :: rest =>
      send_answer E tr (group_jid cg) response = None
      /\ all_sent E response (tr ++ [send_event response cg]) rest
  end.

(** What the run logs when a send (or the lookup of the community
    groups) raised [e]. *)
Definition sending_failure_log (g : Group) (e : exn) : event :=
  Log ERROR ("Error sending message to group "
             ++ str_opt (group_name g) ++ ": " ++ str_exn e).

(** Row by row, the same groups with watermarks that did not decrease. *)
Definition watermarks_le (before after : list Group) : Prop :=
  Forall2 (fun a b => group_jid a = group_jid b
                      /\ last_summary_sync a <= last_summary_sync b)
          before after.



(** Descending timestamps. *)
Definition descending (rows : list Message) : Prop :=
  StronglySorted (fun a b => timestamp b <= timestamp a) rows.

(** ** Concrete environments *)

Module Examples.
(** A managed group, last summarized at 5000. *)
Definition G : Group :=
  {| group_jid := "G@g.us";
     group_name := Some "Family";
     managed := true;
     last_summary_sync := 5000 |}.

(** Two groups linked to [G]. *)
Definition C1 : Group :=
  {| group_jid := "C1@g.us"; group_name := Some "Cousins";
     managed := false; last_summary_sync := 0 |}.

Definition C2 : Group :=
  {| group_jid := "C2@g.us"; group_name := Some "Neighbours";
     managed := false; last_summary_sync := 0 |}.

(** Every collaborator answers; the model classifies as [other]. *)
Definition calm : env :=
  {| chat2text := fun ms => "history";
     jid_user := fun jid => jid;
     datetime_now := fun _ => 1000;
     my_jid_answer := fun _ => inr "bot@s.whatsapp.net";
     exec_answer := fun _ _ => None;
     route_answer := fun _ _ => inr IntentEnum.other;
     run_answer := fun _ _ _ => inr "summary";
     send_answer := fun _ _ _ => None;
     community_answer := fun _ _ => inr [];
     commit_answer := fun _ _ => None;
     knowledge_base_answer := fun _ _ => None;
     random_unit := fun _ => (1 # 2)%Q |}.

(** As [calm], with other answers of the language model. *)
Definition with_model (answer : list event -> agent -> string -> exn + string) : env :=
  {| chat2text := chat2text calm;
     jid_user := jid_user calm;
     datetime_now := datetime_now calm;
     my_jid_answer := my_jid_answer calm;
     exec_answer := exec_answer calm;
     route_answer := route_answer calm;
     run_answer := answer;
     send_answer := send_answer calm;
     community_answer := community_answer calm;
     commit_answer := commit_answer calm;
     knowledge_base_answer := knowledge_base_answer calm;
     random_unit := random_unit calm |}.

(** The model times out on every call. *)
Definition timing_out : env :=
  with_model (fun _ _ _ => inl (Exception "timeout")).

(** As [calm], with [C1] and [C2] linked to every group and [C1]
    unreachable. *)
Definition c1_unreachable : env :=
  {| chat2text := chat2text calm;
     jid_user := jid_user calm;
     datetime_now := datetime_now calm;
     my_jid_answer := my_jid_answer calm;
     exec_answer := exec_answer calm;
     route_answer := route_answer calm;
     run_answer := run_answer calm;
     send_answer := fun _ phone _ =>
                      if String.eqb phone "C1@g.us" then Some (Exception "unreachable")
                      else None;
     community_answer := fun _ _ => inr [C1; C2];
     commit_answer := commit_answer calm;
     knowledge_base_answer := knowledge_base_answer calm;
     random_unit := random_unit calm |}.

(** As [calm], with the persistence session failing on the messages of
    the group [B]. *)
Definition b_fails : env :=
  {| chat2text := chat2text calm;
     jid_user := jid_user calm;
     datetime_now := datetime_now calm;
     my_jid_answer := my_jid_answer calm;
     exec_answer := fun _ stmt =>
                      match stmt with
                      | SelectGroupMessages group _ _ =>
                          if String.eqb group "B@g.us"
                          then Some (Exception "connection lost")
                          else None
                      | _ => None
                      end;
     route_answer := route_answer calm;
     run_answer := run_answer calm;
     send_answer := send_answer calm;
     community_answer := community_answer calm;
     commit_answer := commit_answer calm;
     knowledge_base_answer := knowledge_base_answer calm;
     random_unit := random_unit calm |}.

(** As [calm], with another answer of the classifier. *)
Definition with_route (answer : exn + IntentEnum.t) : env :=
  {| chat2text := chat2text calm;
     jid_user := jid_user calm;
     datetime_now := datetime_now calm;
     my_jid_answer := my_jid_answer calm;
     exec_answer := exec_answer calm;
     route_answer := fun _ _ => answer;
     run_answer := run_answer calm;
     send_answer := send_answer calm;
     community_answer := community_answer calm;
     commit_answer := commit_answer calm;
     knowledge_base_answer := knowledge_base_answer calm;
     random_unit := random_unit calm |}.

Definition empty_world : world :=
  {| messages := []; groups := []; trace := [] |}.

(** A message of [G] by alice, [n] microseconds after 6000. *)
Definition row (n : nat) : Message :=
  {| message_id := "m";
     chat_jid := "G@g.us";
     group_jid_of := Some "G@g.us";
     sender_jid := "alice@s.whatsapp.net";
     text := Some "hello";
     timestamp := 6000 + Z.of_nat n |}.

(** Three managed groups, last summarized at 500, and one that is not
    managed. *)
Definition managed_group (jid : string) : Group :=
  {| group_jid := jid; group_name := Some jid; managed := true;
     last_summary_sync := 500 |}.

Definition A : Group := managed_group "A@g.us".
Definition B : Group := managed_group "B@g.us".
Definition C : Group := managed_group "C@g.us".

(** A message of the group [jid] by alice at 600. *)
Definition row_of (jid : string) (n : nat) : Message :=
  {| message_id := "m";
     chat_jid := jid;
     group_jid_of := Some jid;
     sender_jid := "alice@s.whatsapp.net";
     text := Some "hello";
     timestamp := 600 + Z.of_nat n |}.

(** Twenty unseen messages in each of [A], [B] and [C]. *)
Definition three_groups : world :=
  {| messages := (map (row_of "A@g.us") (seq 0 20)
                  ++ map (row_of "B@g.us") (seq 0 20)
                  ++ map (row_of "C@g.us") (seq 0 20))%list;
     groups := [A; C1; B; C];
     trace := [] |}.

(** No message at all. *)
Definition quiet_world : world :=
  {| messages := []; groups := [G; C1; C2]; trace := [] |}.

(** Twenty messages in [G] since its last summary. *)
Definition busy_world : world :=
  {| messages := map row (seq 0 20); groups := [G; C1; C2]; trace := [] |}.

Definition me : string := "bot@s.whatsapp.net".

(** [busy_world] once the run of [G] has made its query. *)
Definition after_query : world :=
  extend busy_world [GetMyJid; Exec (group_statement G me)].

(** ... and once the generation has given up, the model timing out. *)
Definition given_up : world :=
  snd (SummarizeAndSendToGroups.summarize timing_out "Family"
         (unseen G me busy_world) after_query).

(** ... or once the generation has returned, the model answering. *)
Definition generated : world :=
  snd (SummarizeAndSendToGroups.summarize calm "Family"
         (unseen G me busy_world) after_query).

(** An embedding provider that answers every batch, the vector of a
    text being its length. *)
Definition lengths_provider (tr : list event) (model : string) (batch : list string)
  : exn + list nat :=
  inr (map String.length batch).

(** [n] texts. *)
Definition texts (n : nat) : list string := repeat "text" n.

(** The batches sent to the provider for [n] texts, and the number of
    vectors returned. *)
Definition embed_texts (n : nat) : list nat * nat :=
  match AzureOpenAIEmbedText.azure_openai_embed_text nat lengths_provider
          (texts n) "text-embedding-3-large" empty_world with
  | (inr vectors, w) =>
      (map (fun e => match e with
                     | EmbeddingsCreate _ batch => length batch
                     | _ => O
                     end) (trace w),
       length vectors)
  | (inl _, _) => ([], O)
  end.

(** A request for a summary, in the chat of [G]. *)
Definition question : Message :=
  {| message_id := "3EB0C4";
     chat_jid := "G@g.us";
     group_jid_of := Some "G@g.us";
     sender_jid := "alice@s.whatsapp.net";
     text := Some "What happened today?";
     timestamp := 999 |}.

(** A message of the assistant itself in the chat of [G]. *)
Definition own_row : Message :=
  {| message_id := "3EB0AA";
     chat_jid := "G@g.us";
     group_jid_of := Some "G@g.us";
     sender_jid := me;
     text := Some "Here is the summary";
     timestamp := 900 |}.

(** The chat of [G] with a message of alice and one of the assistant. *)
Definition own_world : world :=
  {| messages := [row 0; own_row]; groups := [G]; trace := [] |}.

Definition rate_limited : exn := ModelHTTPError "{'error': {'code': '429', 'message': 'rate limit'}}".
End Examples.

(** [src/config/__init__.py] *)
Module Config.




End Config.

(** ** Further vocabulary *)

(** A send goes to the chat of [m], as a reply to [m]. *)
Definition replies_to (m : Message) (e : event) : Prop :=
  match e with
  | SendMessage phone _ reply_to =>
      phone = chat_jid m /\ reply_to = Some (message_id m)
  | _ => True
  end.

(** The seconds slept in [calls]. *)
Fixpoint total_sleep (calls : list event) : Q :=
  match calls with
  | [] => 0%Q
  | Sleep seconds :: rest => (seconds + total_sleep rest)%Q
  | _ :: rest => total_sleep rest
  end.

(** The slices [input[i : i + batch_size]] of the loop of
    [azure_openai_embed_text], in the order of the loop. *)
Definition batches_of (input : list string) : list (list string) :=
  map (fun i => AzureOpenAIEmbedText.slice input i (i + AzureOpenAIEmbedText.batch_size))
      (AzureOpenAIEmbedText.range 0 (length input) AzureOpenAIEmbedText.batch_size).

(** The provider answered the batches [bs], asked one after the other
    from the trace [tr], with [answers]. *)
Fixpoint answered {vector : Type}
    (create_answer : list event -> string -> list string -> exn + list vector)
    (model : string) (tr : list event) (bs : list (list string))
    (answers : list (list vector)) : Prop :=
  match bs, answers with
  | [], [] => True
  | b :: bs', a :: answers' =>
      create_answer tr model b = inr a
      /\ answered create_answer model (tr ++ [EmbeddingsCreate model b]) bs' answers'
  | _, _ => False
  end.


(** The language model fails while fewer than [n] calls were made to it,
    and answers afterwards. *)
Definition fails_before (E : env) (a : agent) (p : string) (n : nat) (s : string)
  : Prop :=
  (forall tr, (count is_agent_run tr < n)%nat -> exists e, run_answer E tr a p = inl e)
  /\ (forall tr, count is_agent_run tr = n -> run_answer E tr a p = inr s).

(** What the handlers of [Router.summarize] do with the exception [e]:
    the logs, then the apology sent as a reply to [m]. *)
Definition on_demand_failure_calls (m : Message) (e : exn) : list event :=
  match e with
  | ModelHTTPError body =>
      if content_filtered body then
        [Log WARNING ("Content filtered during summarization for chat " ++ chat_jid m);
         Log DEBUG ("Content filter details: " ++ body);
         SendMessage (chat_jid m) Router.policy_apology (Some (message_id m))]
      else
        [Log ERROR ("Model HTTP error in summarization: " ++ body);
         SendMessage (chat_jid m) Router.http_apology (Some (message_id m))]
  | Exception msg =>
      [Log ERROR ("Unexpected error in summarization: " ++ msg);
       SendMessage (chat_jid m) Router.unexpected_apology (Some (message_id m))]
  end.

(** The apology among them. *)
Definition apology_for (e : exn) : string :=
  match e with
  | ModelHTTPError body =>
      if content_filtered body then Router.policy_apology else Router.http_apology
  | Exception _ => Router.unexpected_apology
  end.

(** The outcome of a send as the outcome of the coroutine that ends
    with it. *)
Definition outcome_of (answer : option exn) : exn + unit :=
  match answer with
  | None => inr tt
  | Some e => inl e
  end.

(** ** Further environments *)

Module Scenarios.
(** As [Examples.calm], with a model that times out on its first [k]
    calls. *)
Definition flaky (k : nat) : env :=
  Examples.with_model
    (fun tr _ _ => if (count is_agent_run tr <? k)%nat
                   then inl (Exception "timeout")
                   else inr "summary").

(** As [Examples.calm], with other answers of the transport to a send. *)
Definition with_send (answer : list event -> string -> string -> option exn) : env :=
  {| chat2text := chat2text Examples.calm;
     jid_user := jid_user Examples.calm;
     datetime_now := datetime_now Examples.calm;
     my_jid_answer := my_jid_answer Examples.calm;
     exec_answer := exec_answer Examples.calm;
     route_answer := fun _ _ => inr IntentEnum.summarize;
     run_answer := run_answer Examples.calm;
     send_answer := answer;
     community_answer := community_answer Examples.calm;
     commit_answer := commit_answer Examples.calm;
     knowledge_base_answer := knowledge_base_answer Examples.calm;
     random_unit := random_unit Examples.calm |}.

(** As [Examples.calm], with a content filter that rejects every
    call to the model. *)
Definition filtered : env :=
  Examples.with_model
    (fun _ _ _ => inl (ModelHTTPError "{'error': {'code': 'content_filter'}}")).

(** The first send fails, the later ones go through. *)
Definition first_send_fails : env :=
  with_send (fun tr _ _ => if (count is_send tr =? 0)%nat
                           then Some (Exception "timeout")
                           else None).

(** As [Examples.calm], with the query of the managed groups failing. *)
Definition no_database : env :=
  {| chat2text := chat2text Examples.calm;
     jid_user := jid_user Examples.calm;
     datetime_now := datetime_now Examples.calm;
     my_jid_answer := my_jid_answer Examples.calm;
     exec_answer := fun _ _ => Some (Exception "connection refused");
     route_answer := route_answer Examples.calm;
     run_answer := run_answer Examples.calm;
     send_answer := send_answer Examples.calm;
     community_answer := community_answer Examples.calm;
     commit_answer := commit_answer Examples.calm;
     knowledge_base_answer := knowledge_base_answer Examples.calm;
     random_unit := random_unit Examples.calm |}.

(** As [Examples.calm], with [C1] and [C2] linked to every group. *)
Definition linked : env :=
  {| chat2text := chat2text Examples.calm;
     jid_user := jid_user Examples.calm;
     datetime_now := datetime_now Examples.calm;
     my_jid_answer := my_jid_answer Examples.calm;
     exec_answer := exec_answer Examples.calm;
     route_answer := route_answer Examples.calm;
     run_answer := run_answer Examples.calm;
     send_answer := send_answer Examples.calm;
     community_answer := fun _ _ => inr [Examples.C1; Examples.C2];
     commit_answer := commit_answer Examples.calm;
     knowledge_base_answer := knowledge_base_answer Examples.calm;
     random_unit := random_unit Examples.calm |}.

(** A message without text. *)
Definition sticker : Message :=
  {| message_id := "3EB0D1";
     chat_jid := "G@g.us";
     group_jid_of := Some "G@g.us";
     sender_jid := "alice@s.whatsapp.net";
     text := None;
     timestamp := 998 |}.

(** A provider that fails from its third call on. *)
Definition two_calls_provider (tr : list event) (model : string) (batch : list string)
  : exn + list nat :=
  if (length tr <? 2)%nat then inr (map String.length batch)
  else inl (Exception "rate limit").

(** [Examples.busy_world] once the generation for [Examples.G] has
    returned, in the environment [linked]. *)
Definition generated_linked : world :=
  snd (SummarizeAndSendToGroups.summarize linked "Family"
         (unseen Examples.G Examples.me Examples.busy_world) Examples.after_query).

End Scenarios.

(** * Proofs *)

(** ** Traces *)

Lemma record_extend (e : event) (w : world) (evs : list event) :
  record e (extend w evs) = extend w (evs ++ [e]).
Proof.
  unfold record, extend; simpl. now rewrite app_assoc.
Qed.

Lemma record_as_extend (e : event) (w : world) : record e w = extend w [e].
Proof. reflexivity. Qed.

Lemma extend_extend (w : world) (evs evs' : list event) :
  extend (extend w evs) evs' = extend w (evs ++ evs').
Proof.
  unfold extend; simpl. now rewrite app_assoc.
Qed.

Lemma extend_nil (w : world) : extend w [] = w.
Proof.
  destruct w; unfold extend; simpl. now rewrite app_nil_r.
Qed.

Lemma calls_since_extend (w : world) (evs : list event) :
  calls_since w (extend w evs) = evs.
Proof.
  unfold calls_since, extend; simpl.
  rewrite skipn_app, skipn_all, Nat.sub_diag. reflexivity.
Qed.

(** Normal form of a world built by [record] and [extend]. *)
Ltac norm_world :=
  repeat first
    [ rewrite record_extend
    | rewrite extend_extend
    | rewrite record_as_extend ];
  cbn [app].

(** Symbolic execution of a coroutine whose branches are decided. *)
Ltac run :=
  cbv beta iota delta
    [bind ret raise try_except try_finally attempt for_each
     emit log sleep now random];
  norm_world.

(** ** Intent classification *)

(** C1, as the code has it.  [Router._route] makes one model call and
    then: returns the classified intent when the call succeeds; on a
    [ModelHTTPError] whose body is content-moderation-classified, logs a
    warning (and the details at debug level) and returns [other]; on any
    other [ModelHTTPError], logs at error level and raises that same error
    to its caller; on every other exception, logs at error level and
    returns [other]. *)
Theorem route_outcome (E : env) (message : string) (w : world) :
  Router._route E message w =
  match route_answer E (trace w) message with
  | inr intent =>
      (inr intent, extend w [AgentRun RouteAgent message])
  | inl (ModelHTTPError body) =>
      if content_filtered body then
        (inr IntentEnum.other,
         extend w [AgentRun RouteAgent message;
                   Log WARNING ("Content filtered for message routing. Message preview: "
                                ++ take_str 50 message ++ "...");
                   Log DEBUG ("Content filter details: " ++ body)])
      else
        (inl (ModelHTTPError body),
         extend w [AgentRun RouteAgent message;
                   Log ERROR ("Model HTTP error in routing: " ++ body)])
  | inl (Exception msg) =>
      (inr IntentEnum.other,
       extend w [AgentRun RouteAgent message;
                 Log ERROR ("Unexpected error in message routing: " ++ msg)])
  end.
Proof.
  unfold Router._route, route_run.
  cbv beta iota delta [try_except].
  destruct (route_answer E (trace w) message) as [[body | msg] | intent].
  - destruct (content_filtered body); run; reflexivity.
  - run; reflexivity.
  - reflexivity.
Qed.

(** C1, refuted as stated: the model call fails with a rate-limit error,
    which is not content-moderation-classified, and [Router._route]
    raises it instead of returning [other]; [Router.__call__] has no
    handler around the classification, so its caller gets the error. *)
Lemma route_raises_model_http_error :
  content_filtered (str_exn Examples.rate_limited) = false
  /\ Router._route (Examples.with_route (inl Examples.rate_limited)) "what's up?"
        Examples.empty_world
     = (inl Examples.rate_limited,
        extend Examples.empty_world
          [AgentRun RouteAgent "what's up?";
           Log ERROR ("Model HTTP error in routing: " ++ str_exn Examples.rate_limited)])
  /\ fst (Router.__call__ (Examples.with_route (inl Examples.rate_limited))
            Examples.question Examples.empty_world)
     = inl Examples.rate_limited.
Proof. repeat split; reflexivity. Qed.

(** ** The retry policy *)

Lemma Qmax_lower (a b : Q) : (a <= Tenacity.Qmax a b)%Q.
Proof.
  unfold Tenacity.Qmax. destruct (Qle_bool a b) eqn:H.
  - now apply Qle_bool_iff.
  - apply Qle_refl.
Qed.

Lemma Qmax_upper (a b c : Q) : (a <= c)%Q -> (b <= c)%Q -> (Tenacity.Qmax a b <= c)%Q.
Proof.
  unfold Tenacity.Qmax. destruct (Qle_bool a b); auto.
Qed.

Lemma Qmin_upper (a b : Q) : (Tenacity.Qmin a b <= b)%Q.
Proof.
  unfold Tenacity.Qmin. destruct (Qle_bool a b) eqn:H.
  - now apply Qle_bool_iff.
  - apply Qle_refl.
Qed.

Lemma wait_exponential_bounds (n : nat) :
  (1 <= Tenacity.wait_exponential 1 30 n /\ Tenacity.wait_exponential 1 30 n <= 30)%Q.
Proof.
  unfold Tenacity.wait_exponential.
  change (Tenacity.Qmax 0 1) with 1%Q.
  split.
  - apply Qmax_lower.
  - apply Qmax_upper; [ discriminate | apply Qmin_upper ].
Qed.

Lemma wait_random_exponential_bounds (n : nat) (u : Q) :
  (0 <= u)%Q -> (u <= 1)%Q ->
  (1 <= Tenacity.wait_random_exponential 1 30 n u
   /\ Tenacity.wait_random_exponential 1 30 n u <= 30)%Q.
Proof.
  intros H0 H1. unfold Tenacity.wait_random_exponential.
  destruct (wait_exponential_bounds n) as [Hlo Hhi].
  set (high := Tenacity.wait_exponential 1 30 n) in *.
  split; nra.
Qed.

Lemma count_app (p : event -> bool) (l l' : list event) :
  count p (l ++ l') = (count p l + count p l')%nat.
Proof.
  unfold count. now rewrite filter_app, length_app.
Qed.

(** What a retried model call does, for any number [left] of attempts
    left after the current one. *)
Lemma retrying_agent_run (E : env) (a : agent) (p : string) :
  forall (left n : nat) (w : world),
  exists (pre : list event) (r : exn + string),
    Tenacity.retrying E left n (agent_run E a p) w
      = (r, extend w (pre ++ [AgentRun a p]))
    /\ run_answer E (trace w ++ pre) a p = r
    /\ (count is_agent_run pre <= left)%nat
    /\ count is_sleep pre = count is_agent_run pre
    /\ count is_send pre = 0%nat
    /\ count is_commit pre = 0%nat
    /\ ((forall tr, 0 <= random_unit E tr /\ random_unit E tr <= 1)%Q ->
        Forall (sleep_within 1 30) pre)
    /\ (forall e, r = inl e -> count is_agent_run pre = left).
Proof.
  intros left. induction left as [| left IH]; intros n w.
  - exists [], (run_answer E (trace w) a p).
    cbn [Tenacity.retrying]. unfold agent_run.
    cbv beta iota delta [try_except].
    rewrite app_nil_r.
    repeat split; try reflexivity; auto.
    destruct (run_answer E (trace w) a p); run; reflexivity.
  - cbn [Tenacity.retrying]. unfold agent_run at 1.
    cbv beta iota delta [try_except].
    destruct (run_answer E (trace w) a p) as [e | s] eqn:Hanswer.
    + run.
      set (seconds := Tenacity.wait_random_exponential 1 30 n _).
      set (again := [AgentRun a p;
                     Log DEBUG ("Retrying after exception: " ++ str_exn e);
                     Sleep seconds]).
      destruct (IH (S n) (extend w again)) as (pre & r & Hrun & Hr & Hle & Hsl & Hse & Hco & Hw & Hall).
      exists (again ++ pre)%list, r.
      rewrite Hrun. norm_world.
      rewrite <- app_assoc.
      repeat split.
      * cbn [extend trace] in Hr. now rewrite <- app_assoc in Hr.
      * rewrite count_app. cbn. lia.
      * rewrite !count_app. cbn. lia.
      * rewrite count_app. cbn. lia.
      * rewrite count_app. cbn. lia.
      * intros Hu. apply Forall_app; split; [| exact (Hw Hu)].
        repeat constructor; apply wait_random_exponential_bounds; apply Hu.
      * intros e' He'. rewrite count_app. cbn. rewrite (Hall e' He'). reflexivity.
    + exists [], (inr s). rewrite app_nil_r.
      repeat split; try reflexivity; auto.
      * cbn. lia.
      * intros e He. discriminate He.
Qed.



(** ** One group *)

Section OneGroup.
Variable E : env.
Variable g : Group.
Variable w : world.
Variable me : string.
Hypothesis identity : my_jid_answer E (trace w) = inr me.
Hypothesis query : exec_answer E (trace w ++ [GetMyJid]) (group_statement g me) = None.

(** Fewer than 15 rows: the run stops after the query. *)
Lemma below_threshold :
  (length (unseen g me w) < 15)%nat ->
  SummarizeAndSendToGroups.summarize_and_send_to_group E g w
  = (inr tt,
     extend w [GetMyJid; Exec (group_statement g me);
               Log INFO ("Not enough messages to summarize in group "
                         ++ str_opt (group_name g))]).
Proof.
  intros Hfew.
  unfold SummarizeAndSendToGroups.summarize_and_send_to_group, get_my_jid, exec.
  cbv beta iota delta [bind]. rewrite identity.
  cbv beta iota. cbn [record trace].
  fold (group_statement g me). rewrite query.
  cbv beta iota. cbn [record messages].
  fold (unseen g me w).
  apply Nat.ltb_lt in Hfew. rewrite Hfew.
  run. reflexivity.
Qed.

(** At least 15 rows: the run is the generation, then its handlers or
    the sends and the [finally] block. *)
Lemma at_threshold :
  (15 <= length (unseen g me w))%nat ->
  SummarizeAndSendToGroups.summarize_and_send_to_group E g w
  = match SummarizeAndSendToGroups.summarize E (or_default (group_name g) "group")
            (unseen g me w) (extend w [GetMyJid; Exec (group_statement g me)]) with
    | (inl e, w2) => (inr tt, extend w2 (generation_failure_log g e))
    | (inr response, w2) =>
        try_finally (SummarizeAndSendToGroups.send_or_log E g response)
                    (SummarizeAndSendToGroups.update_last_summary_sync E g) w2
    end.
Proof.
  intros Hmany.
  unfold SummarizeAndSendToGroups.summarize_and_send_to_group, get_my_jid, exec.
  cbv beta iota delta [bind]. rewrite identity.
  cbv beta iota. cbn [record trace].
  fold (group_statement g me). rewrite query.
  cbv beta iota. cbn [record messages].
  fold (unseen g me w).
  apply Nat.ltb_ge in Hmany. rewrite Hmany.
  cbv beta iota delta [attempt].
  change (record (Exec (group_statement g me)) (record GetMyJid w))
    with (extend (extend w [GetMyJid]) [Exec (group_statement g me)]).
  rewrite extend_extend. cbn [app].
  destruct (SummarizeAndSendToGroups.summarize E _ _ _) as [[[body | msg] | response] w2].
  - unfold generation_failure_log.
    destruct (content_filtered body); run; reflexivity.
  - run. reflexivity.
  - reflexivity.
Qed.
End OneGroup.

Lemma generation_failure_log_counts (g : Group) (e : exn) :
  count is_agent_run (generation_failure_log g e) = 0%nat
  /\ count is_send (generation_failure_log g e) = 0%nat
  /\ count is_commit (generation_failure_log g e) = 0%nat.
Proof.
  destruct e as [body | msg]; cbn [generation_failure_log];
    [ destruct (content_filtered body) | ]; repeat split.
Qed.




(** C4.  When the generation raises (all its attempts failed, see
    [summarize_retry_policy]), the run logs the failure and returns:
    6 model calls were made, no send and no commit, and both tables are
    as they were, so the same window is read on the next run. *)
Theorem generation_failure_leaves_group (E : env) (g : Group) (w : world) (me : string)
    (e : exn) (w2 : world) :
  my_jid_answer E (trace w) = inr me ->
  exec_answer E (trace w ++ [GetMyJid]) (group_statement g me) = None ->
  (15 <= length (unseen g me w))%nat ->
  SummarizeAndSendToGroups.summarize E (or_default (group_name g) "group")
    (unseen g me w) (extend w [GetMyJid; Exec (group_statement g me)]) = (inl e, w2) ->
  exists (attempts : list event),
    SummarizeAndSendToGroups.summarize_and_send_to_group E g w
    = (inr tt,
       extend w ([GetMyJid; Exec (group_statement g me)] ++ attempts
                 ++ generation_failure_log g e))
    /\ count is_agent_run attempts = 6%nat
    /\ count is_send
         ([GetMyJid; Exec (group_statement g me)] ++ attempts
          ++ generation_failure_log g e) = 0%nat
    /\ count is_commit
         ([GetMyJid; Exec (group_statement g me)] ++ attempts
          ++ generation_failure_log g e) = 0%nat
    /\ groups (snd (SummarizeAndSendToGroups.summarize_and_send_to_group E g w))
       = groups w
    /\ messages (snd (SummarizeAndSendToGroups.summarize_and_send_to_group E g w))
       = messages w.
Proof.
  intros Hid Hq Hmany Hgen.
  pose proof (at_threshold E g w me Hid Hq Hmany) as Hrun.
  rewrite Hgen in Hrun.
  unfold SummarizeAndSendToGroups.summarize, Tenacity.retry in Hgen.
  destruct (retrying_agent_run E (GroupSummaryAgent (or_default (group_name g) "group"))
              (chat2text E (unseen g me w)) 5 1
              (extend w [GetMyJid; Exec (group_statement g me)]))
    as (pre & r & Hretry & _ & _ & _ & Hse & Hco & _ & Hall).
  unfold SummarizeAndSendToGroups.summarize_body in Hgen.
  change (Tenacity.max_attempt_number - 1)%nat with 5%nat in Hgen.
  rewrite Hretry in Hgen. injection Hgen as Hr Hw2. subst r w2.
  rewrite extend_extend in Hrun. rewrite extend_extend in Hrun.
  destruct (generation_failure_log_counts g e) as (Hlog_run & Hlog_send & Hlog_commit).
  exists (pre ++ [AgentRun (GroupSummaryAgent (or_default (group_name g) "group"))
                     (chat2text E (unseen g me w))])%list.
  split; [| split; [| split; [| split; [| split]]]].
  - rewrite Hrun. f_equal.
  - rewrite count_app, (Hall e eq_refl). reflexivity.
  - rewrite !count_app, Hse, Hlog_send. reflexivity.
  - rewrite !count_app, Hco, Hlog_commit. reflexivity.
  - rewrite Hrun. reflexivity.
  - rewrite Hrun. reflexivity.
Qed.

Lemma generation_failure_leaves_group_timing_out :
  my_jid_answer Examples.timing_out (trace Examples.busy_world) = inr Examples.me
  /\ exec_answer Examples.timing_out (trace Examples.busy_world ++ [GetMyJid])
       (group_statement Examples.G Examples.me) = None
  /\ (15 <= length (unseen Examples.G Examples.me Examples.busy_world))%nat
  /\ SummarizeAndSendToGroups.summarize Examples.timing_out
       (or_default (group_name Examples.G) "group")
       (unseen Examples.G Examples.me Examples.busy_world)
       (extend Examples.busy_world
          [GetMyJid; Exec (group_statement Examples.G Examples.me)])
     = (inl (Exception "timeout"), Examples.given_up)
  /\ exists (attempts : list event),
       SummarizeAndSendToGroups.summarize_and_send_to_group
         Examples.timing_out Examples.G Examples.busy_world
       = (inr tt,
          extend Examples.busy_world
            ([GetMyJid; Exec (group_statement Examples.G Examples.me)] ++ attempts
             ++ generation_failure_log Examples.G (Exception "timeout")))
       /\ count is_agent_run attempts = 6%nat
       /\ count is_send
            ([GetMyJid; Exec (group_statement Examples.G Examples.me)] ++ attempts
             ++ generation_failure_log Examples.G (Exception "timeout")) = 0%nat
       /\ count is_commit
            ([GetMyJid; Exec (group_statement Examples.G Examples.me)] ++ attempts
             ++ generation_failure_log Examples.G (Exception "timeout")) = 0%nat
       /\ groups (snd (SummarizeAndSendToGroups.summarize_and_send_to_group
                         Examples.timing_out Examples.G Examples.busy_world))
          = groups Examples.busy_world
       /\ messages (snd (SummarizeAndSendToGroups.summarize_and_send_to_group
                           Examples.timing_out Examples.G Examples.busy_world))
          = messages Examples.busy_world.
Proof.
  assert (Hmany : (15 <= length (unseen Examples.G Examples.me Examples.busy_world))%nat)
    by (vm_compute; lia).
  assert (Hgen : SummarizeAndSendToGroups.summarize Examples.timing_out
                   (or_default (group_name Examples.G) "group")
                   (unseen Examples.G Examples.me Examples.busy_world)
                   (extend Examples.busy_world
                      [GetMyJid; Exec (group_statement Examples.G Examples.me)])
                 = (inl (Exception "timeout"), Examples.given_up))
    by (vm_compute; reflexivity).
  split; [ reflexivity | split; [ reflexivity | split; [ exact Hmany | split; [ exact Hgen | ]]]].
  exact (generation_failure_leaves_group Examples.timing_out Examples.G
           Examples.busy_world Examples.me (Exception "timeout") Examples.given_up
           eq_refl eq_refl Hmany Hgen).
Defined.

(** ** The sends *)

Section Sends.
Variable E : env.
Variable response : string.

(** The loop over the community groups, all sends succeeding. *)
Lemma for_each_all_sent (cgs : list Group) :
  forall w,
  all_sent E response (trace w) cgs ->
  for_each cgs (fun cg => send_message E (group_jid cg) response None) w
  = (inr tt, extend w (map (send_event response) cgs)).
Proof.
  induction cgs as [| cg rest IH]; intros w Hsent.
  - cbn. now rewrite extend_nil.
  - destruct Hsent as [Hcg Hrest].
    cbn [for_each]. unfold send_message at 1.
    cbv beta iota delta [bind]. rewrite Hcg.
    cbv beta iota.
    rewrite (IH (record (SendMessage (group_jid cg) response None) w) Hrest).
    norm_world. reflexivity.
Qed.

(** The loop stops at the first send that raises. *)
Lemma for_each_first_failure (before : list Group) (cg : Group) (after : list Group)
    (e : exn) :
  forall w,
  all_sent E response (trace w) before ->
  send_answer E (trace w ++ map (send_event response) before) (group_jid cg) response
    = Some e ->
  for_each (before ++ cg :: after)
    (fun cg => send_message E (group_jid cg) response None) w
  = (inl e, extend w (map (send_event response) before ++ [send_event response cg])).
Proof.
  induction before as [| b rest IH]; intros w Hsent Hfail.
  - cbn [app map] in *. rewrite app_nil_r in Hfail.
    cbn [for_each]. unfold send_message at 1.
    cbv beta iota delta [bind]. rewrite Hfail. reflexivity.
  - destruct Hsent as [Hb Hrest].
    cbn [app for_each]. unfold send_message at 1.
    cbv beta iota delta [bind]. rewrite Hb.
    cbv beta iota.
    rewrite (IH (record (SendMessage (group_jid b) response None) w) Hrest).
    + norm_world. reflexivity.
    + cbn [record trace map]. rewrite <- app_assoc. exact Hfail.
Qed.

(** Whatever the sends do, the loop only adds sends to the trace. *)
Lemma for_each_sends (cgs : list Group) :
  forall w,
  exists (r : exn + unit) (calls : list event),
    for_each cgs (fun cg => send_message E (group_jid cg) response None) w
    = (r, extend w calls)
    /\ count is_commit calls = 0%nat.
Proof.
  induction cgs as [| cg rest IH]; intros w.
  - exists (inr tt), []. cbn. now rewrite extend_nil.
  - cbn [for_each]. unfold send_message at 1.
    cbv beta iota delta [bind].
    destruct (send_answer E (trace w) (group_jid cg) response) as [e |].
    + exists (inl e), [SendMessage (group_jid cg) response None]. split; reflexivity.
    + destruct (IH (record (SendMessage (group_jid cg) response None) w))
        as (r & calls & Hrun & Hcommit).
      exists r, (SendMessage (group_jid cg) response None :: calls).
      rewrite Hrun. norm_world. split; [ reflexivity | exact Hcommit ].
Qed.
End Sends.

(** The [try]/[except] around the sends never raises and never commits. *)
Lemma send_or_log_returns (E : env) (g : Group) (response : string) (w : world) :
  exists (calls : list event),
    SummarizeAndSendToGroups.send_or_log E g response w = (inr tt, extend w calls)
    /\ count is_commit calls = 0%nat.
Proof.
  unfold SummarizeAndSendToGroups.send_or_log, SummarizeAndSendToGroups.send_to_all.
  unfold send_message at 1. unfold get_related_community_groups.
  cbv beta iota delta [try_except bind].
  destruct (send_answer E (trace w) (group_jid g) response) as [e |].
  - eexists. run. split; reflexivity.
  - cbv beta iota.
    destruct (community_answer E _ g) as [e | cgs].
    + eexists. run. split; reflexivity.
    + destruct (for_each_sends E response cgs
                  (record (GetRelatedCommunityGroups (group_jid g))
                     (record (SendMessage (group_jid g) response None) w)))
        as ([e | []] & calls & Hrun & Hcommit); rewrite Hrun.
      * exists ([SendMessage (group_jid g) response None;
                 GetRelatedCommunityGroups (group_jid g)] ++ calls
                ++ [sending_failure_log g e])%list.
        run. split; [ reflexivity |].
        change (count is_commit (calls ++ [sending_failure_log g e]) = 0%nat).
        rewrite count_app, Hcommit. reflexivity.
      * exists ([SendMessage (group_jid g) response None;
                 GetRelatedCommunityGroups (group_jid g)] ++ calls)%list.
        run. split; [ reflexivity | exact Hcommit ].
Qed.

(** C2, as the code has it.  The sends share one [try] block.  A send
    that raises is caught and logged at error level, and the block
    returns; but the sending ends there: after a failure on the main
    group neither the community groups are looked up nor anything is sent
    to them, and after a failure on a community group nothing is sent to
    the community groups that follow it.  Without a failure every
    destination gets the summary, the main group first. *)
Theorem send_failure_ends_sending (E : env) (g : Group) (response : string) (w : world) :
  let to_group := SendMessage (group_jid g) response None in
  let lookup := GetRelatedCommunityGroups (group_jid g) in
  (forall e,
      send_answer E (trace w) (group_jid g) response = Some e ->
      SummarizeAndSendToGroups.send_or_log E g response w
      = (inr tt, extend w [to_group; sending_failure_log g e]))
  /\ (forall before cg after e,
         send_answer E (trace w) (group_jid g) response = None ->
         community_answer E (trace w ++ [to_group]) g = inr (before ++ cg :: after)%list ->
         all_sent E response (trace w ++ [to_group; lookup]) before ->
         send_answer E (trace w ++ [to_group; lookup] ++ map (send_event response) before)
           (group_jid cg) response = Some e ->
         SummarizeAndSendToGroups.send_or_log E g response w
         = (inr tt,
            extend w ([to_group; lookup] ++ map (send_event response) before
                      ++ [send_event response cg; sending_failure_log g e])))
  /\ (forall cgs,
         send_answer E (trace w) (group_jid g) response = None ->
         community_answer E (trace w ++ [to_group]) g = inr cgs ->
         all_sent E response (trace w ++ [to_group; lookup]) cgs ->
         SummarizeAndSendToGroups.send_or_log E g response w
         = (inr tt, extend w ([to_group; lookup] ++ map (send_event response) cgs))).
Proof.
  cbv zeta.
  unfold SummarizeAndSendToGroups.send_or_log, SummarizeAndSendToGroups.send_to_all.
  unfold send_message at 1 3 5. unfold get_related_community_groups.
  cbv beta iota delta [try_except bind].
  split; [| split].
  - intros e Hmain. rewrite Hmain. run. reflexivity.
  - intros before cg after e Hmain Hlookup Hsent Hfail. rewrite Hmain.
    cbv beta iota. cbn [record trace]. rewrite Hlookup.
    rewrite (for_each_first_failure E response before cg after e).
    + run. rewrite <- app_assoc. reflexivity.
    + cbn [record trace]. rewrite <- app_assoc. exact Hsent.
    + cbn [record trace]. rewrite <- !app_assoc. exact Hfail.
  - intros cgs Hmain Hlookup Hsent. rewrite Hmain.
    cbv beta iota. cbn [record trace]. rewrite Hlookup.
    rewrite (for_each_all_sent E response cgs).
    + run. reflexivity.
    + cbn [record trace]. rewrite <- app_assoc. exact Hsent.
Qed.

(** C2 at work: [C1] is unreachable, and [C2] gets nothing. *)
Lemma send_failure_ends_sending_c1_unreachable :
  SummarizeAndSendToGroups.send_or_log Examples.c1_unreachable Examples.G "summary"
    Examples.busy_world
  = (inr tt,
     extend Examples.busy_world
       ([SendMessage (group_jid Examples.G) "summary" None;
         GetRelatedCommunityGroups (group_jid Examples.G)]
        ++ map (send_event "summary") []
        ++ [send_event "summary" Examples.C1;
            sending_failure_log Examples.G (Exception "unreachable")])).
Proof.
  exact (proj1 (proj2 (send_failure_ends_sending Examples.c1_unreachable Examples.G
                         "summary" Examples.busy_world))
           [] Examples.C1 [Examples.C2] (Exception "unreachable")
           eq_refl eq_refl I eq_refl).
Defined.

(** C2, refuted as stated: the summary was generated, the send to the
    community group [C1] fails, and no send to the remaining community
    group [C2] is attempted. *)
Lemma remaining_destination_not_attempted :
  community_answer Examples.c1_unreachable [] Examples.G = inr [Examples.C1; Examples.C2]
  /\ filter is_send
       (calls_since Examples.busy_world
          (snd (SummarizeAndSendToGroups.summarize_and_send_to_group
                  Examples.c1_unreachable Examples.G Examples.busy_world)))
     = [SendMessage "G@g.us" "summary" None; SendMessage "C1@g.us" "summary" None].
Proof.
  split.
  - reflexivity.
  - vm_compute. reflexivity.
Qed.

(** ** The watermark *)

Lemma watermarks_le_refl (gs : list Group) : watermarks_le gs gs.
Proof.
  induction gs as [| x rest IH]; constructor; auto. split; [ reflexivity | lia ].
Qed.

Lemma persist_watermarks_le (g' : Group) (gs : list Group) :
  (forall x, In x gs -> group_jid x = group_jid g' ->
             last_summary_sync x <= last_summary_sync g') ->
  watermarks_le gs (persist g' gs).
Proof.
  induction gs as [| x rest IH]; intros Hle; cbn [persist map].
  - constructor.
  - constructor.
    + destruct (String.eqb (group_jid x) (group_jid g')) eqn:Hjid.
      * apply String.eqb_eq in Hjid. split; [ exact Hjid |].
        apply Hle; [ now left | exact Hjid ].
      * split; [ reflexivity | lia ].
    + apply IH. intros y Hy. apply Hle. now right.
Qed.

(** The [finally] block: the clock is read, the group is committed with
    that reading as its watermark. *)
Lemma update_last_summary_sync_run (E : env) (g : Group) (w : world) :
  SummarizeAndSendToGroups.update_last_summary_sync E g w
  = match commit_answer E (trace w) (set_last_summary_sync g (datetime_now E (trace w))) with
    | None =>
        (inr tt,
         record (Commit (set_last_summary_sync g (datetime_now E (trace w))))
           (store_group (set_last_summary_sync g (datetime_now E (trace w))) w))
    | Some e =>
        (inl e, record (Commit (set_last_summary_sync g (datetime_now E (trace w)))) w)
    end.
Proof.
  unfold SummarizeAndSendToGroups.update_last_summary_sync, now, commit.
  cbv beta iota delta [bind]. reflexivity.
Qed.

(** The tables after any run of one group: the messages are as they
    were, and the groups are as they were or hold [g] with a reading of
    the clock as its watermark. *)
Lemma group_run_tables (E : env) (g : Group) (w : world) :
  messages (snd (SummarizeAndSendToGroups.summarize_and_send_to_group E g w))
  = messages w
  /\ (groups (snd (SummarizeAndSendToGroups.summarize_and_send_to_group E g w))
      = groups w
      \/ exists tr,
           groups (snd (SummarizeAndSendToGroups.summarize_and_send_to_group E g w))
           = persist (set_last_summary_sync g (datetime_now E tr)) (groups w)).
Proof.
  destruct (my_jid_answer E (trace w)) as [e | me] eqn:Hid.
  - unfold SummarizeAndSendToGroups.summarize_and_send_to_group, get_my_jid.
    cbv beta iota delta [bind]. rewrite Hid. cbn. auto.
  - destruct (exec_answer E (trace w ++ [GetMyJid]) (group_statement g me))
      as [e |] eqn:Hq.
    + unfold SummarizeAndSendToGroups.summarize_and_send_to_group, get_my_jid, exec.
      cbv beta iota delta [bind]. rewrite Hid.
      cbv beta iota. cbn [record trace].
      fold (group_statement g me). rewrite Hq. cbn. auto.
    + destruct (Nat.lt_ge_cases (length (unseen g me w)) 15) as [Hfew | Hmany].
      * rewrite (below_threshold E g w me Hid Hq Hfew). cbn. auto.
      * rewrite (at_threshold E g w me Hid Hq Hmany).
        unfold SummarizeAndSendToGroups.summarize, Tenacity.retry,
          SummarizeAndSendToGroups.summarize_body.
        destruct (retrying_agent_run E
                    (GroupSummaryAgent (or_default (group_name g) "group"))
                    (chat2text E (unseen g me w)) 5 1
                    (extend w [GetMyJid; Exec (group_statement g me)]))
          as (pre & r & Hretry & _).
        change (Tenacity.max_attempt_number - 1)%nat with 5%nat.
        rewrite Hretry.
        destruct r as [e | response].
        -- cbn. auto.
        -- cbv beta iota delta [try_finally].
           destruct (send_or_log_returns E g response
                       (extend (extend w [GetMyJid; Exec (group_statement g me)])
                          (pre ++ [AgentRun (GroupSummaryAgent
                                               (or_default (group_name g) "group"))
                                     (chat2text E (unseen g me w))])))
             as (calls & Hsend & _).
           rewrite Hsend, update_last_summary_sync_run.
           destruct (commit_answer E _ _) as [e |].
           ++ cbn. auto.
           ++ cbn. split; [ reflexivity |]. right. eexists. reflexivity.
Qed.

(** The generation touches no table. *)
Lemma summarize_tables (E : env) (name : string) (msgs : list Message) (w w2 : world)
    (r : exn + string) :
  SummarizeAndSendToGroups.summarize E name msgs w = (r, w2) ->
  groups w2 = groups w /\ messages w2 = messages w.
Proof.
  unfold SummarizeAndSendToGroups.summarize, Tenacity.retry,
    SummarizeAndSendToGroups.summarize_body.
  destruct (retrying_agent_run E (GroupSummaryAgent name) (chat2text E msgs) 5 1 w)
    as (pre & r' & Hretry & _).
  change (Tenacity.max_attempt_number - 1)%nat with 5%nat.
  rewrite Hretry. intros Heq. injection Heq as _ Hw2. subst w2. split; reflexivity.
Qed.

(** C3, as the code has it.  Once the generation has returned, whatever
    the sends do (they are caught), the [finally] block reads the clock
    and commits the group with that reading as its watermark: when the
    commit succeeds the table holds it, when the commit raises the run
    raises.  The reading replaces the stored watermark without being
    compared with it, so over any run of a group the watermarks do not
    decrease provided the clock never reads earlier than a stored
    watermark of that group. *)
Theorem watermark_set_to_clock_reading (E : env) (g : Group) (w : world) :
  (forall me response w2,
      my_jid_answer E (trace w) = inr me ->
      exec_answer E (trace w ++ [GetMyJid]) (group_statement g me) = None ->
      (15 <= length (unseen g me w))%nat ->
      SummarizeAndSendToGroups.summarize E (or_default (group_name g) "group")
        (unseen g me w) (extend w [GetMyJid; Exec (group_statement g me)])
      = (inr response, w2) ->
      exists (sends : list event),
        let w3 := extend w2 sends in
        let g' := set_last_summary_sync g (datetime_now E (trace w3)) in
        SummarizeAndSendToGroups.send_or_log E g response w2 = (inr tt, w3)
        /\ SummarizeAndSendToGroups.summarize_and_send_to_group E g w
           = match commit_answer E (trace w3) g' with
             | None => (inr tt, record (Commit g') (store_group g' w3))
             | Some e => (inl e, record (Commit g') w3)
             end
        /\ (commit_answer E (trace w3) g' = None ->
            groups (snd (SummarizeAndSendToGroups.summarize_and_send_to_group E g w))
            = persist g' (groups w)))
  /\ ((forall tr x, In x (groups w) -> group_jid x = group_jid g ->
                    last_summary_sync x <= datetime_now E tr) ->
      watermarks_le (groups w)
        (groups (snd (SummarizeAndSendToGroups.summarize_and_send_to_group E g w)))).
Proof.
  split.
  - intros me response w2 Hid Hq Hmany Hgen.
    destruct (send_or_log_returns E g response w2) as (sends & Hsend & _).
    exists sends. cbv zeta.
    assert (Hrun :
              SummarizeAndSendToGroups.summarize_and_send_to_group E g w
              = match commit_answer E (trace (extend w2 sends))
                        (set_last_summary_sync g
                           (datetime_now E (trace (extend w2 sends)))) with
                | None =>
                    (inr tt,
                     record (Commit (set_last_summary_sync g
                                       (datetime_now E (trace (extend w2 sends)))))
                       (store_group (set_last_summary_sync g
                                       (datetime_now E (trace (extend w2 sends))))
                          (extend w2 sends)))
                | Some e =>
                    (inl e,
                     record (Commit (set_last_summary_sync g
                                       (datetime_now E (trace (extend w2 sends)))))
                       (extend w2 sends))
                end).
    { rewrite (at_threshold E g w me Hid Hq Hmany), Hgen.
      cbv beta iota delta [try_finally].
      rewrite Hsend, update_last_summary_sync_run.
      destruct (commit_answer E _ _); reflexivity. }
    split; [ exact Hsend | split; [ exact Hrun |] ].
    intros Hcommit. rewrite Hrun, Hcommit.
    destruct (summarize_tables E _ _ _ _ _ Hgen) as [Hgroups _].
    cbn. rewrite Hgroups. reflexivity.
  - intros Hclock.
    destruct (group_run_tables E g w) as [_ [Hsame | [tr Hset]]].
    + rewrite Hsame. apply watermarks_le_refl.
    + rewrite Hset. apply persist_watermarks_le.
      intros x Hx Hjid. cbn. apply Hclock; assumption.
Qed.

(** C3 at work: the summary of [G] is generated and sent. *)
Lemma watermark_set_to_clock_reading_calm :
  my_jid_answer Examples.calm (trace Examples.busy_world) = inr Examples.me
  /\ exec_answer Examples.calm (trace Examples.busy_world ++ [GetMyJid])
       (group_statement Examples.G Examples.me) = None
  /\ (15 <= length (unseen Examples.G Examples.me Examples.busy_world))%nat
  /\ SummarizeAndSendToGroups.summarize Examples.calm
       (or_default (group_name Examples.G) "group")
       (unseen Examples.G Examples.me Examples.busy_world)
       (extend Examples.busy_world
          [GetMyJid; Exec (group_statement Examples.G Examples.me)])
     = (inr "summary", Examples.generated)
  /\ exists (sends : list event),
       let w3 := extend Examples.generated sends in
       let g' := set_last_summary_sync Examples.G
                   (datetime_now Examples.calm (trace w3)) in
       SummarizeAndSendToGroups.send_or_log Examples.calm Examples.G "summary"
         Examples.generated = (inr tt, w3)
       /\ SummarizeAndSendToGroups.summarize_and_send_to_group
            Examples.calm Examples.G Examples.busy_world
          = match commit_answer Examples.calm (trace w3) g' with
            | None => (inr tt, record (Commit g') (store_group g' w3))
            | Some e => (inl e, record (Commit g') w3)
            end
       /\ (commit_answer Examples.calm (trace w3) g' = None ->
           groups (snd (SummarizeAndSendToGroups.summarize_and_send_to_group
                          Examples.calm Examples.G Examples.busy_world))
           = persist g' (groups Examples.busy_world)).
Proof.
  assert (Hmany : (15 <= length (unseen Examples.G Examples.me Examples.busy_world))%nat)
    by (vm_compute; lia).
  assert (Hgen : SummarizeAndSendToGroups.summarize Examples.calm
                   (or_default (group_name Examples.G) "group")
                   (unseen Examples.G Examples.me Examples.busy_world)
                   (extend Examples.busy_world
                      [GetMyJid; Exec (group_statement Examples.G Examples.me)])
                 = (inr "summary", Examples.generated))
    by (vm_compute; reflexivity).
  split; [ reflexivity | split; [ reflexivity | split; [ exact Hmany | split; [ exact Hgen | ]]]].
  exact (proj1 (watermark_set_to_clock_reading Examples.calm Examples.G
                  Examples.busy_world)
           Examples.me "summary" Examples.generated eq_refl eq_refl Hmany Hgen).
Defined.

(** C3, refuted as stated: the clock reads 1000 while the stored
    watermark of [G] is 5000; the summary is generated and sent, and the
    watermark of [G] goes down to 1000. *)
Lemma watermark_decreases :
  map last_summary_sync (groups Examples.busy_world) = [5000; 0; 0]
  /\ fst (SummarizeAndSendToGroups.summarize_and_send_to_group
            Examples.calm Examples.G Examples.busy_world) = inr tt
  /\ map last_summary_sync
       (groups (snd (SummarizeAndSendToGroups.summarize_and_send_to_group
                       Examples.calm Examples.G Examples.busy_world)))
     = [1000; 0; 0].
Proof.
  repeat split; vm_compute; reflexivity.
Qed.

(** ** The fan-out over the managed groups *)






(** The fan-out over [A], [B] and [C] when the unit of [B] raises: the
    units of [A] and [C] send their summaries and commit their
    watermarks, and the exception of [B] is logged. *)
Lemma fan_out_b_fails :
  let w' := snd (SummarizeAndSendToGroups.summarize_and_send_to_groups
                   Examples.b_fails Examples.three_groups) in
  fst (SummarizeAndSendToGroups.summarize_and_send_to_groups
         Examples.b_fails Examples.three_groups) = inr tt
  /\ filter is_send (trace w')
     = [SendMessage "A@g.us" "summary" None; SendMessage "C@g.us" "summary" None]
  /\ filter is_commit (trace w')
     = [Commit (set_last_summary_sync Examples.A 1000);
        Commit (set_last_summary_sync Examples.C 1000)]
  /\ map last_summary_sync (groups w') = [1000; 0; 500; 1000]
  /\ last (trace w') GetMyJid = Log ERROR "Error syncing group: connection lost".
Proof.
  cbv zeta. repeat split; vm_compute; reflexivity.
Qed.

(** ** Embedding batches *)

Section Batches.
Variable vector : Type.
Variable create_answer : list event -> string -> list string -> exn + list vector.
Variable embed : string -> vector.
Variable model_name : string.

(** The provider's contract: one vector per text, in the order of the
    batch. *)
Hypothesis one_vector_per_text :
  forall tr batch, create_answer tr model_name batch = inr (map embed batch).

(** One turn of the loop. *)
Lemma embed_batch_run (input : list string) (acc : list vector) (i : nat) (w : world) :
  AzureOpenAIEmbedText.embed_batch vector create_answer input model_name acc i w
  = (inr (acc ++ map embed (firstn 100 (skipn i input)))%list,
     record (EmbeddingsCreate model_name (firstn 100 (skipn i input))) w).
Proof.
  unfold AzureOpenAIEmbedText.embed_batch, AzureOpenAIEmbedText.embeddings_create,
    AzureOpenAIEmbedText.slice, AzureOpenAIEmbedText.batch_size.
  cbv beta iota zeta delta [bind ret].
  replace (i + 100 - i)%nat with 100%nat by lia.
  rewrite one_vector_per_text. reflexivity.
Qed.

(** The loop, from the index [start] on. *)
Lemma embed_loop (input : list string) :
  forall (fuel start : nat) (acc : list vector) (w : world),
  (length input - start <= fuel)%nat ->
  exists (batches : list (list string)),
    AzureOpenAIEmbedText.for_acc
      (AzureOpenAIEmbedText.range_from fuel start (length input) 100)
      acc
      (AzureOpenAIEmbedText.embed_batch vector create_answer input model_name)
      w
    = (inr (acc ++ map embed (skipn start input))%list,
       extend w (map (EmbeddingsCreate model_name) batches))
    /\ concat batches = skipn start input
    /\ Forall (fun batch => (1 <= length batch <= 100)%nat) batches
    /\ length batches = ((length input - start + 99) / 100)%nat.
Proof.
  induction fuel as [| fuel IH]; intros start acc w Hfuel.
  - exists []. cbn [AzureOpenAIEmbedText.range_from AzureOpenAIEmbedText.for_acc map].
    assert (Hnil : skipn start input = []) by (apply skipn_all2; lia).
    rewrite Hnil, extend_nil. cbn [map]. rewrite app_nil_r.
    repeat split; auto.
    replace (length input - start)%nat with 0%nat by lia. reflexivity.
  - cbn [AzureOpenAIEmbedText.range_from].
    destruct (start <? length input)%nat eqn:Hlt.
    + apply Nat.ltb_lt in Hlt.
      cbn [AzureOpenAIEmbedText.for_acc].
      cbv beta iota delta [bind]. rewrite embed_batch_run.
      destruct (IH (start + 100)%nat
                  (acc ++ map embed (firstn 100 (skipn start input)))%list
                  (record (EmbeddingsCreate model_name (firstn 100 (skipn start input))) w))
        as (batches & Hrun & Hconcat & Hsizes & Hcount); [ lia |].
      exists (firstn 100 (skipn start input) :: batches).
      assert (Hskip : skipn (start + 100) input = skipn 100 (skipn start input))
        by (rewrite skipn_skipn; f_equal; lia).
      rewrite Hskip in *.
      split; [| split; [| split]].
      * rewrite Hrun. norm_world. f_equal.
        rewrite <- app_assoc, <- map_app, firstn_skipn. reflexivity.
      * cbn [concat]. rewrite Hconcat. apply firstn_skipn.
      * constructor; [| exact Hsizes].
        rewrite length_firstn, length_skipn. lia.
      * cbn [length]. rewrite Hcount.
        assert (H100 : (100 <> 0)%nat) by lia.
        destruct (Nat.le_gt_cases 100 (length input - start)) as [Hbig | Hsmall].
        -- replace (length input - start + 99)%nat
             with ((length input - (start + 100) + 99) + 1 * 100)%nat by lia.
           rewrite Nat.div_add by exact H100. lia.
        -- replace (length input - (start + 100) + 99)%nat with 99%nat by lia.
           rewrite (Nat.div_small 99 100) by lia.
           apply (Nat.div_unique _ 100 1 (length input - start - 1)); lia.
    + apply Nat.ltb_ge in Hlt.
      exists []. cbn [AzureOpenAIEmbedText.for_acc map].
      assert (Hnil : skipn start input = []) by (apply skipn_all2; lia).
      rewrite Hnil, extend_nil. cbn [map]. rewrite app_nil_r.
      repeat split; auto.
      replace (length input - start)%nat with 0%nat by lia. reflexivity.
Qed.
End Batches.

(** C8.  With a provider that answers each batch with one vector per
    text, in order, [azure_openai_embed_text] returns the vectors of the
    N input texts in the order of the input, and calls the provider once
    per batch: the batches are consecutive pieces of the input, of 1 to
    100 texts each, and there are ceil(N / 100) of them. *)
Theorem embed_text_batches (vector : Type)
    (create_answer : list event -> string -> list string -> exn + list vector)
    (embed : string -> vector) (model_name : string) (input : list string) (w : world) :
  (forall tr batch, create_answer tr model_name batch = inr (map embed batch)) ->
  exists (batches : list (list string)),
    AzureOpenAIEmbedText.azure_openai_embed_text vector create_answer input model_name w
    = (inr (map embed input), extend w (map (EmbeddingsCreate model_name) batches))
    /\ length (map embed input) = length input
    /\ concat batches = input
    /\ Forall (fun batch => (1 <= length batch <= 100)%nat) batches
    /\ length batches = ((length input + 99) / 100)%nat.
Proof.
  intros Hprovider.
  destruct (embed_loop vector create_answer embed model_name Hprovider input
              (length input) 0 [] w) as (batches & Hrun & Hconcat & Hsizes & Hcount);
    [ lia |].
  exists batches.
  unfold AzureOpenAIEmbedText.azure_openai_embed_text, AzureOpenAIEmbedText.range.
  change AzureOpenAIEmbedText.batch_size with 100%nat.
  rewrite Hrun. cbn [skipn app] in *. rewrite Nat.sub_0_r in Hcount.
  repeat split; auto. apply length_map.
Qed.

Lemma embed_text_batches_101 :
  (forall tr batch,
      Examples.lengths_provider tr "text-embedding-3-large" batch
      = inr (map String.length batch))
  /\ exists (batches : list (list string)),
       AzureOpenAIEmbedText.azure_openai_embed_text nat Examples.lengths_provider
         (Examples.texts 101) "text-embedding-3-large" Examples.empty_world
       = (inr (map String.length (Examples.texts 101)),
          extend Examples.empty_world
            (map (EmbeddingsCreate "text-embedding-3-large") batches))
       /\ length (map String.length (Examples.texts 101)) = length (Examples.texts 101)
       /\ concat batches = Examples.texts 101
       /\ Forall (fun batch => (1 <= length batch <= 100)%nat) batches
       /\ length batches = ((length (Examples.texts 101) + 99) / 100)%nat.
Proof.
  split.
  - intros tr batch. reflexivity.
  - exact (embed_text_batches nat Examples.lengths_provider String.length
             "text-embedding-3-large" (Examples.texts 101) Examples.empty_world
             (fun tr batch => eq_refl)).
Defined.

(** The sizes of the batches and the number of vectors for 0, 1, 100,
    101 and 250 texts. *)
Lemma embed_edge_cases :
  Examples.embed_texts 0 = ([], 0%nat)
  /\ Examples.embed_texts 1 = ([1%nat], 1%nat)
  /\ Examples.embed_texts 100 = ([100%nat], 100%nat)
  /\ Examples.embed_texts 101 = ([100%nat; 1%nat], 101%nat)
  /\ Examples.embed_texts 250 = ([100%nat; 100%nat; 50%nat], 250%nat).
Proof.
  repeat split; vm_compute; reflexivity.
Qed.

(** ** The queries *)

Lemma insert_desc_perm (m : Message) (rows : list Message) :
  Permutation (m :: rows) (insert_desc m rows).
Proof.
  induction rows as [| x rest IH]; cbn [insert_desc].
  - apply Permutation_refl.
  - destruct (timestamp x <? timestamp m).
    + apply Permutation_refl.
    + apply perm_trans with (x :: m :: rest).
      * apply perm_swap.
      * apply perm_skip. exact IH.
Qed.

Lemma order_by_desc_timestamp_perm (rows : list Message) :
  Permutation rows (order_by_desc_timestamp rows).
Proof.
  induction rows as [| m rest IH]; cbn [order_by_desc_timestamp].
  - apply perm_nil.
  - apply perm_trans with (m :: order_by_desc_timestamp rest).
    + apply perm_skip. exact IH.
    + apply insert_desc_perm.
Qed.

Lemma insert_desc_descending (m : Message) (rows : list Message) :
  descending rows -> descending (insert_desc m rows).
Proof.
  unfold descending.
  induction rows as [| x rest IH]; intros Hsorted; cbn [insert_desc].
  - repeat constructor.
  - apply StronglySorted_inv in Hsorted. destruct Hsorted as [Hrest Hx].
    destruct (timestamp x <? timestamp m) eqn:Hlt.
    + apply Z.ltb_lt in Hlt. constructor.
      * constructor; assumption.
      * constructor; [ lia |].
        eapply Forall_impl; [| exact Hx]. cbn. intros y Hy. lia.
    + apply Z.ltb_ge in Hlt. constructor.
      * apply IH. exact Hrest.
      * apply (Permutation_Forall (insert_desc_perm m rest)).
        constructor; assumption.
Qed.

Lemma order_by_desc_timestamp_descending (rows : list Message) :
  descending (order_by_desc_timestamp rows).
Proof.
  induction rows as [| m rest IH]; cbn [order_by_desc_timestamp].
  - constructor.
  - apply insert_desc_descending. exact IH.
Qed.




(** ** On-demand summaries *)







(** * Further properties *)

(** Symbolic execution through every branch of a coroutine. *)
Ltac explore :=
  repeat first
    [ progress (cbv beta iota zeta delta
                  [bind ret raise try_except try_finally attempt emit log sleep now
                   random]; norm_world)
    | match goal with
      | |- context [match ?x with _ => _ end] =>
          match type of x with
          | sum _ _ => destruct x
          | option _ => destruct x
          | exn => destruct x
          | bool => destruct x
          | IntentEnum.t => destruct x
          | list _ => destruct x
          end
      end ].

(** ** The router *)

(** X1.  Whatever the collaborators answer, every message [Router.__call__]
    sends goes to the chat of the incoming message as a reply to it; it
    sends at most two messages and calls the language model at most
    twice; it commits nothing and leaves both tables as they were; and for
    a message without text it calls no collaborator at all. *)
Theorem router_replies_in_thread (E : env) (m : Message) (w : world) :
  Forall (replies_to m) (calls_since w (snd (Router.__call__ E m w)))
  /\ (count is_send (calls_since w (snd (Router.__call__ E m w))) <= 2)%nat
  /\ (count is_agent_run (calls_since w (snd (Router.__call__ E m w))) <= 2)%nat
  /\ count is_commit (calls_since w (snd (Router.__call__ E m w))) = 0%nat
  /\ groups (snd (Router.__call__ E m w)) = groups w
  /\ messages (snd (Router.__call__ E m w)) = messages w
  /\ (text m = None ->
      filter is_remote_call (calls_since w (snd (Router.__call__ E m w))) = []).
Proof.
  unfold Router.__call__, Router._route, Router.summarize, Router.about,
    Router.default_response, route_run, agent_run, send_message, ask_knowledge_base,
    exec.
  explore; cbn [snd]; rewrite ?calls_since_extend;
    (split; [ repeat constructor |]);
    (split; [ cbn; lia |]);
    (split; [ cbn; lia |]);
    (split; [ reflexivity |]);
    (split; [ reflexivity |]);
    (split; [ reflexivity |]);
    intros H; first [ discriminate H | reflexivity ].
Qed.

(** X2.  The dispatch of [Router.__call__] on a message with text, after
    the one classification call: [other] gets the fixed fallback reply
    and [about] the fixed description, each as one reply to the message;
    [ask_question] is handed to the knowledge base and the router sends
    nothing itself; and a classification that fails with a
    content-moderation error, or with an exception that is not a
    [ModelHTTPError], gets the fallback reply of [other] after its logs. *)
Theorem router_dispatch (E : env) (m : Message) (w : world) (txt : string) :
  text m = Some txt ->
  let dispatched := calls_since w (snd (Router.__call__ E m w)) in
  let classify := AgentRun RouteAgent txt in
  let fallback :=
    SendMessage (chat_jid m) Router.default_response_text (Some (message_id m)) in
  (route_answer E (trace w) txt = inr IntentEnum.other ->
   dispatched = [classify; fallback])
  /\ (route_answer E (trace w) txt = inr IntentEnum.about ->
      dispatched = [classify;
                    SendMessage (chat_jid m) Router.about_text (Some (message_id m))])
  /\ (route_answer E (trace w) txt = inr IntentEnum.ask_question ->
      dispatched = [classify; KnowledgeBase (message_id m)])
  /\ (forall body,
         route_answer E (trace w) txt = inl (ModelHTTPError body) ->
         content_filtered body = true ->
         dispatched
         = [classify;
            Log WARNING ("Content filtered for message routing. Message preview: "
                         ++ take_str 50 txt ++ "...");
            Log DEBUG ("Content filter details: " ++ body);
            fallback])
  /\ (forall msg,
         route_answer E (trace w) txt = inl (Exception msg) ->
         dispatched
         = [classify;
            Log ERROR ("Unexpected error in message routing: " ++ msg);
            fallback]).
Proof.
  intros Htext. cbv zeta.
  unfold Router.__call__, Router._route, Router.about, Router.default_response,
    route_run, send_message, ask_knowledge_base.
  rewrite Htext.
  repeat split.
  - intros Hroute. cbv beta iota delta [bind try_except]. rewrite Hroute.
    explore; cbn [snd]; rewrite calls_since_extend; reflexivity.
  - intros Hroute. cbv beta iota delta [bind try_except]. rewrite Hroute.
    explore; cbn [snd]; rewrite calls_since_extend; reflexivity.
  - intros Hroute. cbv beta iota delta [bind try_except]. rewrite Hroute.
    explore; cbn [snd]; rewrite calls_since_extend; reflexivity.
  - intros body Hroute Hfiltered. cbv beta iota delta [bind try_except].
    rewrite Hroute. cbv beta iota. rewrite Hfiltered.
    explore; cbn [snd]; rewrite calls_since_extend; reflexivity.
  - intros msg Hroute. cbv beta iota delta [bind try_except]. rewrite Hroute.
    explore; cbn [snd]; rewrite calls_since_extend; reflexivity.
Qed.

Lemma router_dispatch_question :
  text Examples.question = Some "What happened today?"
  /\ route_answer Examples.calm (trace Examples.quiet_world) "What happened today?"
     = inr IntentEnum.other
  /\ calls_since Examples.quiet_world
       (snd (Router.__call__ Examples.calm Examples.question Examples.quiet_world))
     = [AgentRun RouteAgent "What happened today?";
        SendMessage (chat_jid Examples.question) Router.default_response_text
          (Some (message_id Examples.question))].
Proof.
  split; [ reflexivity | split; [ reflexivity |] ].
  exact (proj1 (router_dispatch Examples.calm Examples.question Examples.quiet_world
                  "What happened today?" eq_refl) eq_refl).
Defined.

(** The run of [Router.summarize] up to its model call, when the query
    answers with at least one row. *)
Lemma summarize_with_history (E : env) (m : Message) (w : world) :
  let since := datetime_now E (trace w) - hours_24 in
  let stmt := SelectChatMessages (chat_jid m) since 30 in
  let history := Router.chat_messages_since (chat_jid m) since 30 (messages w) in
  let prompt := Router.user_prompt E m history in
  exec_answer E (trace w) stmt = None ->
  history <> [] ->
  Router.summarize E m w
  = match run_answer E (trace w ++ [Exec stmt]) ChatSummaryAgent prompt with
    | inl e =>
        (outcome_of (send_answer E
                       (trace w ++ [Exec stmt; AgentRun ChatSummaryAgent prompt]
                        ++ removelast (on_demand_failure_calls m e))
                       (chat_jid m) (apology_for e)),
         extend w ([Exec stmt; AgentRun ChatSummaryAgent prompt]
                   ++ on_demand_failure_calls m e))
    | inr response =>
        match send_answer E (trace w ++ [Exec stmt; AgentRun ChatSummaryAgent prompt])
                (chat_jid m) response with
        | None =>
            (inr tt,
             extend w [Exec stmt; AgentRun ChatSummaryAgent prompt;
                       SendMessage (chat_jid m) response (Some (message_id m))])
        | Some e =>
            (outcome_of (send_answer E
                           (trace w ++ [Exec stmt; AgentRun ChatSummaryAgent prompt;
                                        SendMessage (chat_jid m) response
                                          (Some (message_id m))]
                            ++ removelast (on_demand_failure_calls m e))
                           (chat_jid m) (apology_for e)),
             extend w ([Exec stmt; AgentRun ChatSummaryAgent prompt;
                        SendMessage (chat_jid m) response (Some (message_id m))]
                       ++ on_demand_failure_calls m e))
        end
    end.
Proof.
  cbv zeta. intros Hq Hsome.
  unfold Router.summarize, now, exec.
  cbv beta iota zeta delta [bind]. rewrite Hq.
  cbv beta iota.
  destruct (Router.chat_messages_since (chat_jid m)
              (datetime_now E (trace w) - hours_24) 30 (messages w))
    as [| x rest] eqn:Hhistory; [ contradiction |].
  unfold agent_run, send_message.
  cbv beta iota delta [try_except bind].
  cbn [record trace].
  destruct (run_answer E _ ChatSummaryAgent _) as [e | response].
  - destruct e as [body | msg]; cbn [on_demand_failure_calls apology_for];
      [ destruct (content_filtered body) |];
      cbv beta iota delta [bind log emit]; cbn [record trace removelast app];
      rewrite <- ?app_assoc; cbn [app];
      destruct (send_answer E _ _ _); norm_world; reflexivity.
  - cbv beta iota. cbn [record trace]. rewrite <- ?app_assoc. cbn [app].
    destruct (send_answer E _ (chat_jid m) response) as [e |].
    + destruct e as [body | msg]; cbn [on_demand_failure_calls apology_for];
        [ destruct (content_filtered body) |];
        cbv beta iota delta [bind log emit]; cbn [record trace removelast app];
        rewrite <- ?app_assoc; cbn [app];
        destruct (send_answer E _ _ _); norm_world; reflexivity.
    + norm_world. reflexivity.
Qed.

(** X3.  When the model call of [Router.summarize] raises, the call is
    not repeated: the handler logs and sends one apology in the thread,
    the policy apology for a content-moderation error, the generic one
    for another [ModelHTTPError], the unexpected-error one otherwise; the
    coroutine returns when that send goes through and raises what that
    send raises. *)
Theorem on_demand_model_failure (E : env) (m : Message) (w : world) (e : exn) :
  let since := datetime_now E (trace w) - hours_24 in
  let stmt := SelectChatMessages (chat_jid m) since 30 in
  let history := Router.chat_messages_since (chat_jid m) since 30 (messages w) in
  let prompt := Router.user_prompt E m history in
  exec_answer E (trace w) stmt = None ->
  history <> [] ->
  run_answer E (trace w ++ [Exec stmt]) ChatSummaryAgent prompt = inl e ->
  calls_since w (snd (Router.summarize E m w))
  = ([Exec stmt; AgentRun ChatSummaryAgent prompt] ++ on_demand_failure_calls m e)%list
  /\ count is_agent_run (calls_since w (snd (Router.summarize E m w))) = 1%nat
  /\ filter is_send (calls_since w (snd (Router.summarize E m w)))
     = [SendMessage (chat_jid m) (apology_for e) (Some (message_id m))]
  /\ fst (Router.summarize E m w)
     = outcome_of (send_answer E
                     (trace w ++ [Exec stmt; AgentRun ChatSummaryAgent prompt]
                      ++ removelast (on_demand_failure_calls m e))
                     (chat_jid m) (apology_for e)).
Proof.
  cbv zeta. intros Hq Hsome Hrun.
  rewrite (summarize_with_history E m w Hq Hsome), Hrun.
  cbn [fst snd]. rewrite calls_since_extend.
  repeat split;
    destruct e as [body | msg]; cbn [on_demand_failure_calls apology_for];
    try destruct (content_filtered body); reflexivity.
Qed.

Lemma on_demand_model_failure_filtered :
  exec_answer Scenarios.filtered (trace Examples.own_world)
    (SelectChatMessages (chat_jid Examples.question)
       (datetime_now Scenarios.filtered (trace Examples.own_world) - hours_24) 30) = None
  /\ Router.chat_messages_since (chat_jid Examples.question)
       (datetime_now Scenarios.filtered (trace Examples.own_world) - hours_24) 30
       (messages Examples.own_world) <> []
  /\ filter is_send
       (calls_since Examples.own_world
          (snd (Router.summarize Scenarios.filtered Examples.question Examples.own_world)))
     = [SendMessage (chat_jid Examples.question) Router.policy_apology
          (Some (message_id Examples.question))].
Proof.
  assert (Hsome : Router.chat_messages_since (chat_jid Examples.question)
                    (datetime_now Scenarios.filtered (trace Examples.own_world) - hours_24)
                    30 (messages Examples.own_world) <> [])
    by (vm_compute; discriminate).
  split; [ reflexivity | split; [ exact Hsome |] ].
  exact (proj1 (proj2 (proj2
           (on_demand_model_failure Scenarios.filtered Examples.question
              Examples.own_world
              (ModelHTTPError "{'error': {'code': 'content_filter'}}")
              eq_refl Hsome eq_refl)))).
Defined.

(** X4.  When the model call of [Router.summarize] returns, its output is
    sent as one reply in the thread.  That send is inside the [try]: when
    it raises, the handlers treat the exception as a failure of the
    summarization, and an apology is sent in the thread after the failed
    reply. *)
Theorem on_demand_reply (E : env) (m : Message) (w : world) (response : string) :
  let since := datetime_now E (trace w) - hours_24 in
  let stmt := SelectChatMessages (chat_jid m) since 30 in
  let history := Router.chat_messages_since (chat_jid m) since 30 (messages w) in
  let prompt := Router.user_prompt E m history in
  let reply := SendMessage (chat_jid m) response (Some (message_id m)) in
  exec_answer E (trace w) stmt = None ->
  history <> [] ->
  run_answer E (trace w ++ [Exec stmt]) ChatSummaryAgent prompt = inr response ->
  (send_answer E (trace w ++ [Exec stmt; AgentRun ChatSummaryAgent prompt])
     (chat_jid m) response = None ->
   Router.summarize E m w
   = (inr tt, extend w [Exec stmt; AgentRun ChatSummaryAgent prompt; reply]))
  /\ (forall e,
         send_answer E (trace w ++ [Exec stmt; AgentRun ChatSummaryAgent prompt])
           (chat_jid m) response = Some e ->
         calls_since w (snd (Router.summarize E m w))
         = ([Exec stmt; AgentRun ChatSummaryAgent prompt; reply]
            ++ on_demand_failure_calls m e)%list
         /\ filter is_send (calls_since w (snd (Router.summarize E m w)))
            = [reply; SendMessage (chat_jid m) (apology_for e) (Some (message_id m))]).
Proof.
  cbv zeta. intros Hq Hsome Hrun.
  rewrite (summarize_with_history E m w Hq Hsome), Hrun.
  split.
  - intros Hsend. rewrite Hsend. reflexivity.
  - intros e Hsend. rewrite Hsend.
    cbn [snd]. rewrite calls_since_extend.
    split; [ reflexivity |].
    destruct e as [body | msg]; cbn [on_demand_failure_calls apology_for];
      try destruct (content_filtered body); reflexivity.
Qed.

Lemma on_demand_reply_first_send_fails :
  exec_answer Scenarios.first_send_fails (trace Examples.own_world)
    (SelectChatMessages (chat_jid Examples.question)
       (datetime_now Scenarios.first_send_fails (trace Examples.own_world) - hours_24)
       30) = None
  /\ Router.chat_messages_since (chat_jid Examples.question)
       (datetime_now Scenarios.first_send_fails (trace Examples.own_world) - hours_24)
       30 (messages Examples.own_world) <> []
  /\ filter is_send
       (calls_since Examples.own_world
          (snd (Router.summarize Scenarios.first_send_fails Examples.question
                  Examples.own_world)))
     = [SendMessage (chat_jid Examples.question) "summary"
          (Some (message_id Examples.question));
        SendMessage (chat_jid Examples.question) Router.unexpected_apology
          (Some (message_id Examples.question))].
Proof.
  assert (Hsome : Router.chat_messages_since (chat_jid Examples.question)
                    (datetime_now Scenarios.first_send_fails (trace Examples.own_world)
                     - hours_24)
                    30 (messages Examples.own_world) <> [])
    by (vm_compute; discriminate).
  split; [ reflexivity | split; [ exact Hsome |] ].
  exact (proj2 (proj2 (on_demand_reply Scenarios.first_send_fails Examples.question
                         Examples.own_world "summary" eq_refl Hsome eq_refl)
                  (Exception "timeout") eq_refl)).
Defined.

(** ** The content-moderation test *)

Lemma prefix_iff (needle hay : string) :
  String.prefix needle hay = true <-> exists post, hay = needle ++ post.
Proof.
  revert hay. induction needle as [| a needle IH]; intros hay.
  - split; [ intros _; exists hay; reflexivity | destruct hay; reflexivity ].
  - destruct hay as [| b hay]; cbn [String.prefix].
    + split; [ discriminate | intros [post H]; discriminate H ].
    + destruct (ascii_dec a b) as [Hab | Hab].
      * subst b. rewrite IH. split; intros [post H]; exists post.
        -- cbn. now rewrite H.
        -- cbn in H. now injection H.
      * split; [ discriminate |].
        intros [post H]. cbn in H. injection H as Hba _. congruence.
Qed.

Lemma contains_iff (needle hay : string) :
  contains needle hay = true <-> exists pre post, hay = pre ++ needle ++ post.
Proof.
  induction hay as [| c hay IH]; cbn [contains].
  - destruct (String.prefix needle "") eqn:Hprefix.
    + apply prefix_iff in Hprefix. destruct Hprefix as [post H].
      split; [ intros _; exists "", post; exact H | reflexivity ].
    + split; [ discriminate |].
      intros (pre & post & H).
      destruct pre as [| p pre]; [| discriminate H].
      cbn in H. assert (String.prefix needle "" = true)
        by (apply prefix_iff; exists post; exact H).
      congruence.
  - destruct (String.prefix needle (String c hay)) eqn:Hprefix.
    + apply prefix_iff in Hprefix. destruct Hprefix as [post H].
      split; [ intros _; exists "", post; exact H | reflexivity ].
    + rewrite IH. split.
      * intros (pre & post & H). exists (String c pre), post. cbn. now rewrite H.
      * intros (pre & post & H).
        destruct pre as [| p pre].
        -- cbn in H. assert (String.prefix needle (String c hay) = true)
             by (apply prefix_iff; exists post; exact H).
           congruence.
        -- cbn in H. injection H as _ H. exists pre, post. exact H.
Qed.

Lemma lower_append (a b : string) : lower (a ++ b) = lower a ++ lower b.
Proof.
  induction a as [| c a IH]; cbn; [ reflexivity | now rewrite IH ].
Qed.

(** X5.  A [ModelHTTPError] is content-moderation-classified exactly when
    its body, lower-cased, holds one of the two markers as a substring;
    so a marker in any mix of cases, anywhere in the body, classifies it. *)
Theorem content_filtered_iff (body : string) :
  (content_filtered body = true <->
   exists pre post,
     lower body = pre ++ "content_filter" ++ post
     \/ lower body = pre ++ "responsibleaipolicyviolation" ++ post)
  /\ (forall pre marker post,
         lower marker = "content_filter"
         \/ lower marker = "responsibleaipolicyviolation" ->
         content_filtered (pre ++ marker ++ post) = true).
Proof.
  assert (Hiff : forall b,
             content_filtered b = true <->
             exists pre post,
               lower b = pre ++ "content_filter" ++ post
               \/ lower b = pre ++ "responsibleaipolicyviolation" ++ post).
  { intros b. unfold content_filtered. rewrite orb_true_iff, !contains_iff. split.
    - intros [(pre & post & H) | (pre & post & H)]; exists pre, post; auto.
    - intros (pre & post & [H | H]); [ left | right ]; exists pre, post; exact H. }
  split; [ apply Hiff |].
  intros pre marker post Hmarker. apply Hiff.
  exists (lower pre), (lower post). rewrite !lower_append.
  destruct Hmarker as [H | H]; rewrite H; auto.
Qed.

(** ** One group, further *)

(** X6.  The statement of [summarize_and_send_to_group] returns every
    message of the group whose timestamp is at or after the watermark and
    whose sender is not the assistant, and no other row: it has no limit,
    a message stamped exactly at the watermark is read again, and the
    rows come most recent first. *)
Theorem scheduled_window (g : Group) (me : string) (w : world) :
  (forall m,
      In m (unseen g me w)
      <-> In m (messages w)
          /\ group_jid_of m = Some (group_jid g)
          /\ last_summary_sync g <= timestamp m
          /\ sender_jid m <> me)
  /\ Permutation (unseen g me w)
       (filter (in_group_since_not_by (group_jid g) (last_summary_sync g) me)
               (messages w))
  /\ descending (unseen g me w).
Proof.
  unfold unseen, SummarizeAndSendToGroups.group_messages_since.
  set (rows := filter _ (messages w)).
  assert (Hperm : Permutation rows (order_by_desc_timestamp rows))
    by apply order_by_desc_timestamp_perm.
  split; [| split].
  - intros m. split.
    + intros Hm. apply (Permutation_in m (Permutation_sym Hperm)) in Hm.
      apply filter_In in Hm. destruct Hm as [Htable Hq].
      unfold in_group_since_not_by in Hq.
      rewrite !andb_true_iff, negb_true_iff, Z.leb_le, String.eqb_neq in Hq.
      destruct Hq as [[Hgroup Hsince] Hsender].
      repeat split; try assumption.
      unfold is_jid in Hgroup. destruct (group_jid_of m) as [j |]; [| discriminate].
      apply String.eqb_eq in Hgroup. now subst j.
    + intros (Htable & Hgroup & Hsince & Hsender).
      apply (Permutation_in m Hperm). apply filter_In. split; [ exact Htable |].
      unfold in_group_since_not_by, is_jid. rewrite Hgroup.
      rewrite !andb_true_iff, negb_true_iff, Z.leb_le, String.eqb_neq, String.eqb_eq.
      auto.
  - apply Permutation_sym. exact Hperm.
  - apply order_by_desc_timestamp_descending.
Qed.

(** The [try]/[except] around the sends when every send goes through. *)
Lemma send_or_log_all_sent (E : env) (g : Group) (response : string) (w : world)
    (cgs : list Group) :
  send_answer E (trace w) (group_jid g) response = None ->
  community_answer E (trace w ++ [SendMessage (group_jid g) response None]) g = inr cgs ->
  all_sent E response
    (trace w ++ [SendMessage (group_jid g) response None;
                 GetRelatedCommunityGroups (group_jid g)]) cgs ->
  SummarizeAndSendToGroups.send_or_log E g response w
  = (inr tt,
     extend w ([SendMessage (group_jid g) response None;
                GetRelatedCommunityGroups (group_jid g)]
               ++ map (send_event response) cgs)).
Proof.
  intros Hmain Hlookup Hsent.
  unfold SummarizeAndSendToGroups.send_or_log, SummarizeAndSendToGroups.send_to_all.
  unfold send_message at 1. unfold get_related_community_groups.
  cbv beta iota delta [try_except bind]. rewrite Hmain.
  cbv beta iota. cbn [record trace]. rewrite Hlookup.
  rewrite (for_each_all_sent E response cgs).
  - run. reflexivity.
  - cbn [record trace]. rewrite <- app_assoc. exact Hsent.
Qed.

Lemma filter_send_events (response : string) (cgs : list Group) :
  filter is_send (map (send_event response) cgs) = map (send_event response) cgs.
Proof.
  induction cgs as [| cg rest IH]; [ reflexivity |].
  cbn [map filter send_event is_send]. f_equal. exact IH.
Qed.

(** X7.  The whole run of a group when nothing fails after the
    generation: the same summary text is sent once to the group and then
    once to each of its community groups, in the order the lookup gave
    them, then the group is committed with the clock reading as its
    watermark, and the run returns. *)
Theorem group_run_delivers (E : env) (g : Group) (w : world) (me response : string)
    (w2 : world) (cgs : list Group) :
  let to_group := SendMessage (group_jid g) response None in
  let lookup := GetRelatedCommunityGroups (group_jid g) in
  let sends := ([to_group; lookup] ++ map (send_event response) cgs)%list in
  let g' := set_last_summary_sync g (datetime_now E (trace w2 ++ sends)) in
  my_jid_answer E (trace w) = inr me ->
  exec_answer E (trace w ++ [GetMyJid]) (group_statement g me) = None ->
  (15 <= length (unseen g me w))%nat ->
  SummarizeAndSendToGroups.summarize E (or_default (group_name g) "group")
    (unseen g me w) (extend w [GetMyJid; Exec (group_statement g me)])
  = (inr response, w2) ->
  send_answer E (trace w2) (group_jid g) response = None ->
  community_answer E (trace w2 ++ [to_group]) g = inr cgs ->
  all_sent E response (trace w2 ++ [to_group; lookup]) cgs ->
  commit_answer E (trace w2 ++ sends) g' = None ->
  fst (SummarizeAndSendToGroups.summarize_and_send_to_group E g w) = inr tt
  /\ calls_since w2 (snd (SummarizeAndSendToGroups.summarize_and_send_to_group E g w))
     = (sends ++ [Commit g'])%list
  /\ filter is_send
       (calls_since w2 (snd (SummarizeAndSendToGroups.summarize_and_send_to_group E g w)))
     = to_group :: map (send_event response) cgs
  /\ groups (snd (SummarizeAndSendToGroups.summarize_and_send_to_group E g w))
     = persist g' (groups w).
Proof.
  cbv zeta. intros Hid Hq Hmany Hgen Hmain Hlookup Hsent Hcommit.
  rewrite (at_threshold E g w me Hid Hq Hmany), Hgen.
  cbv beta iota delta [try_finally].
  rewrite (send_or_log_all_sent E g response w2 cgs Hmain Hlookup Hsent).
  rewrite update_last_summary_sync_run.
  cbn [extend trace] in *. rewrite Hcommit.
  destruct (summarize_tables E _ _ _ _ _ Hgen) as [Hgroups _].
  cbn [fst snd].
  split; [ reflexivity | split; [| split] ].
  - unfold calls_since, record, store_group, extend. cbn [trace].
    rewrite <- app_assoc, skipn_app, skipn_all, Nat.sub_diag. reflexivity.
  - unfold calls_since, record, store_group, extend. cbn [trace].
    rewrite <- app_assoc, skipn_app, skipn_all, Nat.sub_diag.
    cbn [skipn app filter is_send]. rewrite filter_app. cbn [filter is_send].
    rewrite app_nil_r, filter_send_events. reflexivity.
  - cbn [record store_group extend groups]. rewrite Hgroups. reflexivity.
Qed.

Lemma group_run_delivers_linked :
  my_jid_answer Scenarios.linked (trace Examples.busy_world) = inr Examples.me
  /\ exec_answer Scenarios.linked (trace Examples.busy_world ++ [GetMyJid])
       (group_statement Examples.G Examples.me) = None
  /\ (15 <= length (unseen Examples.G Examples.me Examples.busy_world))%nat
  /\ SummarizeAndSendToGroups.summarize Scenarios.linked
       (or_default (group_name Examples.G) "group")
       (unseen Examples.G Examples.me Examples.busy_world)
       (extend Examples.busy_world
          [GetMyJid; Exec (group_statement Examples.G Examples.me)])
     = (inr "summary", Scenarios.generated_linked)
  /\ fst (SummarizeAndSendToGroups.summarize_and_send_to_group
            Scenarios.linked Examples.G Examples.busy_world) = inr tt
  /\ filter is_send
       (calls_since Scenarios.generated_linked
          (snd (SummarizeAndSendToGroups.summarize_and_send_to_group
                  Scenarios.linked Examples.G Examples.busy_world)))
     = SendMessage (group_jid Examples.G) "summary" None
       :: map (send_event "summary") [Examples.C1; Examples.C2].
Proof.
  assert (Hmany : (15 <= length (unseen Examples.G Examples.me Examples.busy_world))%nat)
    by (vm_compute; lia).
  assert (Hgen : SummarizeAndSendToGroups.summarize Scenarios.linked
                   (or_default (group_name Examples.G) "group")
                   (unseen Examples.G Examples.me Examples.busy_world)
                   (extend Examples.busy_world
                      [GetMyJid; Exec (group_statement Examples.G Examples.me)])
                 = (inr "summary", Scenarios.generated_linked))
    by (vm_compute; reflexivity).
  split; [ reflexivity | split; [ reflexivity | split; [ exact Hmany | split;
    [ exact Hgen |] ] ] ].
  pose proof (group_run_delivers Scenarios.linked Examples.G Examples.busy_world
                Examples.me "summary" Scenarios.generated_linked
                [Examples.C1; Examples.C2]
                eq_refl eq_refl Hmany Hgen eq_refl eq_refl
                (conj eq_refl (conj eq_refl I)) eq_refl) as H.
  exact (conj (proj1 H) (proj1 (proj2 (proj2 H)))).
Defined.

(** X8.  The exceptions of the language model and of the sends never
    leave the run of a group: when the run raises, the exception is the
    one of the identity lookup, of the message query or of the commit. *)
Theorem group_run_raises_only (E : env) (g : Group) (w : world) (e : exn) :
  fst (SummarizeAndSendToGroups.summarize_and_send_to_group E g w) = inl e ->
  my_jid_answer E (trace w) = inl e
  \/ (exists me,
         my_jid_answer E (trace w) = inr me
         /\ exec_answer E (trace w ++ [GetMyJid]) (group_statement g me) = Some e)
  \/ (exists tr g', commit_answer E tr g' = Some e).
Proof.
  destruct (my_jid_answer E (trace w)) as [e' | me] eqn:Hid.
  - unfold SummarizeAndSendToGroups.summarize_and_send_to_group, get_my_jid.
    cbv beta iota delta [bind]. rewrite Hid. cbn [fst].
    intros H. injection H as H. subst e'. now left.
  - destruct (exec_answer E (trace w ++ [GetMyJid]) (group_statement g me))
      as [e' |] eqn:Hq.
    + unfold SummarizeAndSendToGroups.summarize_and_send_to_group, get_my_jid, exec.
      cbv beta iota delta [bind]. rewrite Hid.
      cbv beta iota. cbn [record trace].
      fold (group_statement g me). rewrite Hq. cbn [fst].
      intros H. injection H as H. subst e'. right. left. exists me. auto.
    + destruct (Nat.lt_ge_cases (length (unseen g me w)) 15) as [Hfew | Hmany].
      * rewrite (below_threshold E g w me Hid Hq Hfew). discriminate.
      * rewrite (at_threshold E g w me Hid Hq Hmany).
        destruct (SummarizeAndSendToGroups.summarize E _ _ _) as [[e' | response] w2].
        -- discriminate.
        -- cbv beta iota delta [try_finally].
           destruct (send_or_log_returns E g response w2) as (calls & Hsend & _).
           rewrite Hsend, update_last_summary_sync_run.
           destruct (commit_answer E _ _) as [e' |] eqn:Hcommit.
           ++ cbn [fst]. intros H. injection H as H. subst e'.
              right. right. eexists. eexists. exact Hcommit.
           ++ discriminate.
Qed.

Lemma group_run_raises_only_b_fails :
  fst (SummarizeAndSendToGroups.summarize_and_send_to_group
         Examples.b_fails Examples.B Examples.three_groups)
  = inl (Exception "connection lost")
  /\ (my_jid_answer Examples.b_fails (trace Examples.three_groups)
      = inl (Exception "connection lost")
      \/ (exists me,
             my_jid_answer Examples.b_fails (trace Examples.three_groups) = inr me
             /\ exec_answer Examples.b_fails (trace Examples.three_groups ++ [GetMyJid])
                  (group_statement Examples.B me) = Some (Exception "connection lost"))
      \/ (exists tr g',
             commit_answer Examples.b_fails tr g' = Some (Exception "connection lost"))).
Proof.
  split; [ reflexivity |].
  exact (group_run_raises_only Examples.b_fails Examples.B Examples.three_groups
           (Exception "connection lost") eq_refl).
Defined.

(** ** The retry policy, further *)

Lemma count_snoc (p : event -> bool) (l : list event) (e : event) :
  count p (l ++ [e]) = (count p l + (if p e then 1 else 0))%nat.
Proof.
  rewrite count_app. unfold count at 2. cbn [filter].
  destruct (p e); reflexivity.
Qed.

(** The retried call when the model fails [k] times and then answers. *)
Lemma retrying_until_answer (E : env) (a : agent) (p s : string) :
  forall (k left n : nat) (w : world),
  (k <= left)%nat ->
  fails_before E a p (count is_agent_run (trace w) + k) s ->
  exists (pre : list event),
    Tenacity.retrying E left n (agent_run E a p) w
    = (inr s, extend w (pre ++ [AgentRun a p]))
    /\ count is_agent_run pre = k
    /\ count is_sleep pre = k.
Proof.
  induction k as [| k IH]; intros left n w Hk [Hfail Hanswer].
  - exists []. rewrite Nat.add_0_r in Hanswer.
    assert (Hrun : run_answer E (trace w) a p = inr s) by (apply Hanswer; reflexivity).
    destruct left; cbn [Tenacity.retrying]; unfold agent_run;
      cbv beta iota delta [try_except]; rewrite Hrun; repeat split.
  - destruct left as [| left]; [ lia |].
    destruct (Hfail (trace w)) as [e Hrun]; [ lia |].
    cbn [Tenacity.retrying]. unfold agent_run at 1.
    cbv beta iota delta [try_except]. rewrite Hrun.
    run.
    set (again := [AgentRun a p;
                   Log DEBUG ("Retrying after exception: " ++ str_exn e);
                   Sleep _]).
    destruct (IH left (S n) (extend w again)) as (pre & Hretry & Hruns & Hsleeps).
    + lia.
    + assert (Hcount : count is_agent_run (trace (extend w again))
                       = S (count is_agent_run (trace w)))
        by (cbn [extend trace]; rewrite count_app; cbn; lia).
      rewrite Hcount.
      replace (S (count is_agent_run (trace w)) + k)%nat
        with (count is_agent_run (trace w) + S k)%nat by lia.
      split; assumption.
    + exists (again ++ pre)%list. rewrite Hretry. norm_world.
      rewrite <- app_assoc. split; [ reflexivity |].
      rewrite !count_app, Hruns, Hsleeps. split; reflexivity.
Qed.

(** X9.  When the model fails on the first [k] attempts of [summarize],
    with [k] at most 5, and answers on the next one, [summarize] returns
    that answer after [k + 1] model calls and [k] sleeps: no failure is
    raised to the caller. *)
Theorem summarize_answers_after_failures (E : env) (name : string)
    (msgs : list Message) (w : world) (k : nat) (s : string) :
  (k <= 5)%nat ->
  fails_before E (GroupSummaryAgent name) (chat2text E msgs)
    (count is_agent_run (trace w) + k) s ->
  exists (calls : list event),
    SummarizeAndSendToGroups.summarize E name msgs w = (inr s, extend w calls)
    /\ count is_agent_run calls = S k
    /\ count is_sleep calls = k.
Proof.
  intros Hk Hflaky.
  destruct (retrying_until_answer E (GroupSummaryAgent name) (chat2text E msgs) s
              k 5 1 w Hk Hflaky) as (pre & Hretry & Hruns & Hsleeps).
  exists (pre ++ [AgentRun (GroupSummaryAgent name) (chat2text E msgs)])%list.
  split; [ exact Hretry |].
  rewrite !count_snoc, Hruns, Hsleeps. cbn. split; lia.
Qed.

Lemma summarize_answers_after_failures_sixth :
  (5 <= 5)%nat
  /\ fails_before (Scenarios.flaky 5) (GroupSummaryAgent "Family")
       (chat2text (Scenarios.flaky 5) [])
       (count is_agent_run (trace Examples.empty_world) + 5) "summary"
  /\ exists (calls : list event),
       SummarizeAndSendToGroups.summarize (Scenarios.flaky 5) "Family" []
         Examples.empty_world
       = (inr "summary", extend Examples.empty_world calls)
       /\ count is_agent_run calls = 6%nat
       /\ count is_sleep calls = 5%nat.
Proof.
  assert (Hflaky : fails_before (Scenarios.flaky 5) (GroupSummaryAgent "Family")
                     (chat2text (Scenarios.flaky 5) [])
                     (count is_agent_run (trace Examples.empty_world) + 5) "summary").
  { split; intros tr Htr; unfold Scenarios.flaky, Examples.with_model;
      cbn [run_answer]; cbn in Htr.
    - apply Nat.ltb_lt in Htr. rewrite Htr. eexists. reflexivity.
    - rewrite Htr. reflexivity. }
  split; [ apply le_n | split; [ exact Hflaky |] ].
  exact (summarize_answers_after_failures (Scenarios.flaky 5) "Family" []
           Examples.empty_world 5 "summary" (le_n 5) Hflaky).
Defined.

Lemma pow2_ge_1 (n : nat) : (1 <= Tenacity.pow2 n)%Q.
Proof.
  induction n as [| n IH]; cbn [Tenacity.pow2]; [ apply Qle_refl | lra ].
Qed.

Lemma Qmin_left (a b : Q) : (Tenacity.Qmin a b <= a)%Q.
Proof.
  unfold Tenacity.Qmin. destruct (Qle_bool a b) eqn:H.
  - apply Qle_refl.
  - destruct (Qlt_le_dec b a) as [Hlt | Hle].
    + apply Qlt_le_weak. exact Hlt.
    + apply Qle_bool_iff in Hle. congruence.
Qed.

(** The wait after the attempt [S m] is at most [2 ^ m] seconds. *)
Lemma wait_random_exponential_le_pow2 (m : nat) (u : Q) :
  (0 <= u)%Q -> (u <= 1)%Q ->
  (Tenacity.wait_random_exponential 1 30 (S m) u <= Tenacity.pow2 m)%Q.
Proof.
  intros H0 H1. unfold Tenacity.wait_random_exponential.
  destruct (wait_exponential_bounds (S m)) as [Hlo _].
  assert (Hhigh : (Tenacity.wait_exponential 1 30 (S m) <= Tenacity.pow2 m)%Q).
  { unfold Tenacity.wait_exponential.
    change (Tenacity.Qmax 0 1) with 1%Q.
    cbn [Nat.sub]. rewrite Nat.sub_0_r.
    apply Qmax_upper; [ apply pow2_ge_1 |].
    eapply Qle_trans; [ apply Qmin_left |]. lra. }
  set (high := Tenacity.wait_exponential 1 30 (S m)) in *.
  nra.
Qed.

Lemma total_sleep_snoc_call (pre : list event) (a : agent) (p : string) :
  total_sleep (pre ++ [AgentRun a p]) = total_sleep pre.
Proof.
  induction pre as [| e rest IH]; [ reflexivity |].
  destruct e; cbn [app total_sleep]; rewrite IH; reflexivity.
Qed.

(** The seconds slept by a retried model call that starts at the attempt
    [S m] with [left] attempts left after it. *)
Lemma retrying_total_sleep (E : env) (a : agent) (p : string) :
  (forall tr, 0 <= random_unit E tr /\ random_unit E tr <= 1)%Q ->
  forall (left m : nat) (w : world),
  exists (pre : list event) (r : exn + string),
    Tenacity.retrying E left (S m) (agent_run E a p) w
    = (r, extend w (pre ++ [AgentRun a p]))
    /\ (total_sleep pre <= Tenacity.pow2 m * (Tenacity.pow2 left - 1))%Q.
Proof.
  intros Hu left. induction left as [| left IH]; intros m w.
  - exists [], (run_answer E (trace w) a p).
    cbn [Tenacity.retrying]. unfold agent_run.
    cbv beta iota delta [try_except].
    split.
    + destruct (run_answer E (trace w) a p); run; reflexivity.
    + cbn [total_sleep Tenacity.pow2]. lra.
  - cbn [Tenacity.retrying]. unfold agent_run at 1.
    cbv beta iota delta [try_except].
    pose proof (pow2_ge_1 m) as Hm. pose proof (pow2_ge_1 left) as Hleft.
    destruct (run_answer E (trace w) a p) as [e | s].
    + run.
      set (seconds := Tenacity.wait_random_exponential 1 30 (S m) _).
      assert (Hseconds : (seconds <= Tenacity.pow2 m)%Q)
        by (apply wait_random_exponential_le_pow2; apply Hu).
      set (again := [AgentRun a p;
                     Log DEBUG ("Retrying after exception: " ++ str_exn e);
                     Sleep seconds]).
      destruct (IH (S m) (extend w again)) as (pre & r & Hretry & Hsleep).
      exists (again ++ pre)%list, r. rewrite Hretry. norm_world.
      rewrite <- app_assoc. split; [ reflexivity |].
      cbn [again app total_sleep]. cbn [Tenacity.pow2] in Hsleep |- *.
      nra.
    + exists [], (inr s). split; [ reflexivity |].
      cbn [total_sleep Tenacity.pow2]. nra.
Qed.

(** X10.  One call of [summarize] sleeps at most 31 seconds in all, the
    random draws being in the unit interval: the waits after the
    attempts 1 to 5 are at most 1, 2, 4, 8 and 16 seconds. *)
Theorem summarize_total_sleep (E : env) (name : string) (msgs : list Message)
    (w : world) :
  (forall tr, 0 <= random_unit E tr /\ random_unit E tr <= 1)%Q ->
  (total_sleep (calls_since w (snd (SummarizeAndSendToGroups.summarize E name msgs w)))
   <= 31)%Q.
Proof.
  intros Hu.
  destruct (retrying_total_sleep E (GroupSummaryAgent name) (chat2text E msgs) Hu 5 0 w)
    as (pre & r & Hretry & Hsleep).
  unfold SummarizeAndSendToGroups.summarize, Tenacity.retry,
    SummarizeAndSendToGroups.summarize_body.
  change (Tenacity.max_attempt_number - 1)%nat with 5%nat.
  rewrite Hretry. cbn [snd]. rewrite calls_since_extend, total_sleep_snoc_call.
  eapply Qle_trans; [ exact Hsleep |].
  cbn [Tenacity.pow2]. lra.
Qed.

Lemma summarize_total_sleep_timing_out :
  (forall tr, 0 <= random_unit Examples.timing_out tr
              /\ random_unit Examples.timing_out tr <= 1)%Q
  /\ (total_sleep
        (calls_since Examples.empty_world
           (snd (SummarizeAndSendToGroups.summarize Examples.timing_out "G" []
                   Examples.empty_world)))
      <= 31)%Q.
Proof.
  split.
  - intros tr. cbn. split; discriminate.
  - apply (summarize_total_sleep Examples.timing_out "G" [] Examples.empty_world).
    intros tr. cbn. split; discriminate.
Defined.

(** ** The fan-out, further *)







(** ** Embedding batches, further *)

Section AnyProvider.
Variable vector : Type.
Variable create_answer : list event -> string -> list string -> exn + list vector.
Variable model_name : string.
Variable input : list string.

(** One turn of the loop, whatever the provider answers. *)
Lemma embed_batch_step (acc : list vector) (i : nat) (w : world) :
  AzureOpenAIEmbedText.embed_batch vector create_answer input model_name acc i w
  = (match create_answer (trace w) model_name
             (AzureOpenAIEmbedText.slice input i (i + AzureOpenAIEmbedText.batch_size)) with
     | inl e => inl e
     | inr a => inr (acc ++ a)%list
     end,
     record (EmbeddingsCreate model_name
               (AzureOpenAIEmbedText.slice input i (i + AzureOpenAIEmbedText.batch_size)))
       w).
Proof.
  unfold AzureOpenAIEmbedText.embed_batch, AzureOpenAIEmbedText.embeddings_create.
  cbv beta iota zeta delta [bind ret].
  destruct (create_answer _ _ _); reflexivity.
Qed.

(** The loop over the indices [idx], whatever the provider answers. *)
Lemma embed_indices (idx : list nat) :
  forall (acc : list vector) (w : world),
  let bs := map (fun i => AzureOpenAIEmbedText.slice input i
                            (i + AzureOpenAIEmbedText.batch_size)) idx in
  let run := AzureOpenAIEmbedText.for_acc idx acc
               (AzureOpenAIEmbedText.embed_batch vector create_answer input model_name)
               w in
  (exists answers,
      run = (inr (acc ++ concat answers)%list,
             extend w (map (EmbeddingsCreate model_name) bs))
      /\ answered create_answer model_name (trace w) bs answers)
  \/ (exists done failing rest answers e,
         bs = (done ++ failing :: rest)%list
         /\ answered create_answer model_name (trace w) done answers
         /\ create_answer (trace w ++ map (EmbeddingsCreate model_name) done)
              model_name failing = inl e
         /\ run = (inl e,
                   extend w (map (EmbeddingsCreate model_name) (done ++ [failing])))).
Proof.
  induction idx as [| i rest IH]; intros acc w; cbv zeta.
  - left. exists []. cbn. rewrite app_nil_r, extend_nil. split; [ reflexivity | exact I ].
  - cbn [map AzureOpenAIEmbedText.for_acc].
    cbv beta iota delta [bind]. rewrite embed_batch_step.
    set (b := AzureOpenAIEmbedText.slice input i (i + AzureOpenAIEmbedText.batch_size)).
    destruct (create_answer (trace w) model_name b) as [e | a] eqn:Hanswer.
    + right. exists [], b, (map (fun i => AzureOpenAIEmbedText.slice input i
                                            (i + AzureOpenAIEmbedText.batch_size)) rest),
        [], e.
      cbn [app map answered]. rewrite app_nil_r.
      repeat split; auto.
    + destruct (IH (acc ++ a)%list (record (EmbeddingsCreate model_name b) w))
        as [(answers & Hrun & Hanswered)
           | (done & failing & rest' & answers & e & Hbs & Hanswered & Hfail & Hrun)];
        cbv zeta in *.
      * left. exists (a :: answers). rewrite Hrun. norm_world.
        cbn [concat answered]. rewrite <- app_assoc.
        repeat split; auto.
      * right. exists (b :: done), failing, rest', (a :: answers), e.
        rewrite Hrun. norm_world. cbn [app map answered].
        cbn [record trace] in Hfail. rewrite <- app_assoc in Hfail.
        rewrite Hbs. repeat split; auto.
Qed.
End AnyProvider.

(** X12.  Whatever the provider answers, [azure_openai_embed_text] asks
    for the batches in order, each once: either every batch is answered
    and the result is the concatenation of the answers in that order, or
    the call for one batch raises, that exception is raised to the caller
    with no vector returned, and the batches after it are not asked for.
    An empty input makes no call and gives the empty list. *)
Theorem embed_text_stops_at_first_failure (vector : Type)
    (create_answer : list event -> string -> list string -> exn + list vector)
    (model_name : string) (input : list string) (w : world) :
  ((exists answers,
       AzureOpenAIEmbedText.azure_openai_embed_text vector create_answer input model_name w
       = (inr (concat answers),
          extend w (map (EmbeddingsCreate model_name) (batches_of input)))
       /\ answered create_answer model_name (trace w) (batches_of input) answers)
   \/ (exists done failing rest answers e,
          batches_of input = (done ++ failing :: rest)%list
          /\ answered create_answer model_name (trace w) done answers
          /\ create_answer (trace w ++ map (EmbeddingsCreate model_name) done)%list
               model_name failing = inl e
          /\ AzureOpenAIEmbedText.azure_openai_embed_text vector create_answer input
               model_name w
             = (inl e, extend w (map (EmbeddingsCreate model_name) (done ++ [failing])))))
  /\ AzureOpenAIEmbedText.azure_openai_embed_text vector create_answer [] model_name w
     = (inr [], w).
Proof.
  split; [| reflexivity ].
  exact (embed_indices vector create_answer model_name input
           (AzureOpenAIEmbedText.range 0 (length input) AzureOpenAIEmbedText.batch_size)
           [] w).
Qed.

(** The slices of the loop, from the index [start] on. *)
Lemma slices_from (input : list string) :
  forall (fuel start : nat),
  (length input - start <= fuel)%nat ->
  let bs := map (fun i => AzureOpenAIEmbedText.slice input i (i + 100))
                (AzureOpenAIEmbedText.range_from fuel start (length input) 100) in
  concat bs = skipn start input
  /\ Forall (fun batch => (1 <= length batch <= 100)%nat) bs
  /\ length bs = ((length input - start + 99) / 100)%nat.
Proof.
  induction fuel as [| fuel IH]; intros start Hfuel; cbv zeta.
  - cbn [AzureOpenAIEmbedText.range_from map concat length].
    rewrite skipn_all2 by lia.
    replace (length input - start)%nat with 0%nat by lia.
    repeat split; auto.
  - cbn [AzureOpenAIEmbedText.range_from].
    destruct (start <? length input)%nat eqn:Hlt.
    + apply Nat.ltb_lt in Hlt.
      destruct (IH (start + 100)%nat) as (Hconcat & Hsizes & Hcount); [ lia |].
      cbv zeta in *. cbn [map concat length].
      unfold AzureOpenAIEmbedText.slice at 1 3 4.
      replace (start + 100 - start)%nat with 100%nat by lia.
      assert (Hskip : skipn (start + 100) input = skipn 100 (skipn start input))
        by (rewrite skipn_skipn; f_equal; lia).
      split; [| split].
      * rewrite Hconcat, Hskip. apply firstn_skipn.
      * constructor; [| exact Hsizes].
        rewrite length_firstn, length_skipn. lia.
      * rewrite Hcount.
        assert (H100 : (100 <> 0)%nat) by lia.
        destruct (Nat.le_gt_cases 100 (length input - start)) as [Hbig | Hsmall].
        -- replace (length input - start + 99)%nat
             with ((length input - (start + 100) + 99) + 1 * 100)%nat by lia.
           rewrite Nat.div_add by exact H100. lia.
        -- replace (length input - (start + 100) + 99)%nat with 99%nat by lia.
           rewrite (Nat.div_small 99 100) by lia.
           apply (Nat.div_unique _ 100 1 (length input - start - 1)); lia.
    + apply Nat.ltb_ge in Hlt.
      cbn [map concat length].
      rewrite skipn_all2 by lia.
      replace (length input - start)%nat with 0%nat by lia.
      repeat split; auto.
Qed.

(** X13.  The batches the loop asks for cut the input into consecutive
    pieces: put end to end they are the input, each holds between 1 and
    100 texts, all but the last hold exactly 100, and there are
    ceil(N / 100) of them for N texts. *)
Theorem batches_of_partition (input : list string) :
  concat (batches_of input) = input
  /\ Forall (fun batch => (1 <= length batch <= 100)%nat) (batches_of input)
  /\ length (batches_of input) = ((length input + 99) / 100)%nat
  /\ Forall (fun batch => length batch = 100%nat) (removelast (batches_of input)).
Proof.
  destruct (slices_from input (length input) 0) as (Hconcat & Hsizes & Hcount);
    [ lia |].
  cbv zeta in *. cbn [skipn] in Hconcat. rewrite Nat.sub_0_r in Hcount.
  unfold batches_of, AzureOpenAIEmbedText.range.
  change AzureOpenAIEmbedText.batch_size with 100%nat.
  split; [ exact Hconcat | split; [ exact Hsizes | split; [ exact Hcount |] ] ].
  assert (Hfull : forall fuel start,
             Forall (fun batch => length batch = 100%nat)
               (removelast
                  (map (fun i => AzureOpenAIEmbedText.slice input i (i + 100))
                     (AzureOpenAIEmbedText.range_from fuel start (length input) 100)))).
  { induction fuel as [| fuel IH]; intros start; [ constructor |].
    cbn [AzureOpenAIEmbedText.range_from].
    destruct (start <? length input)%nat eqn:Hlt; [| constructor ].
    specialize (IH (start + 100)%nat).
    destruct fuel as [| fuel']; [ constructor |].
    cbn [AzureOpenAIEmbedText.range_from] in IH |- *.
    destruct (start + 100 <? length input)%nat eqn:Hnext; [| constructor ].
    apply Nat.ltb_lt in Hnext.
    cbn [map removelast] in IH |- *.
    constructor; [| exact IH ].
    unfold AzureOpenAIEmbedText.slice.
    rewrite length_firstn, length_skipn. lia. }
  apply Hfull.
Qed.

(** The provider fails on its third call: the 250 texts give three calls
    and the exception, and no vector. *)
Lemma embed_third_call_fails :
  AzureOpenAIEmbedText.azure_openai_embed_text nat Scenarios.two_calls_provider
    (Examples.texts 250) "text-embedding-3-large" Examples.empty_world
  = (inl (Exception "rate limit"),
     extend Examples.empty_world
       (map (EmbeddingsCreate "text-embedding-3-large")
            (firstn 3 (batches_of (Examples.texts 250))))).
Proof. vm_compute. reflexivity. Qed.

(** ** The settings *)


(** ** The router, further *)

(** A message without text: one warning, nothing else. *)
Lemma router_ignores_sticker :
  Router.__call__ Examples.calm Scenarios.sticker Examples.quiet_world
  = (inr tt,
     extend Examples.quiet_world
       [Log WARNING "Received message with no text from alice@s.whatsapp.net"]).
Proof. reflexivity. Qed.

(** What [Router.summarize] can raise. *)
Lemma summarize_raises_only (E : env) (m : Message) (w : world) (e : exn) :
  fst (Router.summarize E m w) = inl e ->
  (exists tr stmt, exec_answer E tr stmt = Some e)
  \/ (exists tr phone message, send_answer E tr phone message = Some e).
Proof.
  destruct (exec_answer E (trace w)
              (SelectChatMessages (chat_jid m) (datetime_now E (trace w) - hours_24) 30))
    as [e' |] eqn:Hq.
  - unfold Router.summarize, now, exec.
    cbv beta iota zeta delta [bind]. rewrite Hq. cbn [fst].
    intros H. injection H as H. subst e'. left. eauto.
  - destruct (Router.chat_messages_since (chat_jid m)
                (datetime_now E (trace w) - hours_24) 30 (messages w))
      as [| x rest] eqn:Hhistory.
    + unfold Router.summarize, now, exec, send_message.
      cbv beta iota zeta delta [bind]. rewrite Hq.
      cbv beta iota. rewrite Hhistory.
      destruct (send_answer E _ _ _) as [e' |] eqn:Hsend; cbn [fst]; intros H;
        [| discriminate H ].
      injection H as H. subst e'. right. eauto.
    + assert (Hsome : Router.chat_messages_since (chat_jid m)
                        (datetime_now E (trace w) - hours_24) 30 (messages w) <> [])
        by (rewrite Hhistory; discriminate).
      rewrite (summarize_with_history E m w Hq Hsome).
      destruct (run_answer E _ _ _) as [e0 | response].
      * cbn [fst]. destruct (send_answer E _ _ _) as [e' |] eqn:Hsend;
          cbn [outcome_of]; intros H; [| discriminate H ].
        injection H as H. subst e'. right. eauto.
      * destruct (send_answer E _ (chat_jid m) response) as [e0 |];
          [| discriminate ].
        cbn [fst]. destruct (send_answer E _ _ _) as [e' |] eqn:Hsend;
          cbn [outcome_of]; intros H; [| discriminate H ].
        injection H as H. subst e'. right. eauto.
Qed.

(** X15.  When [Router.__call__] raises, the exception comes from the
    classification (a [ModelHTTPError] that is not
    content-moderation-classified), from the message query, from a send
    or from the knowledge base: a failure of the summarization model
    never leaves the router by itself. *)
Theorem router_raises_only (E : env) (m : Message) (w : world) (e : exn) :
  fst (Router.__call__ E m w) = inl e ->
  (exists txt body,
      text m = Some txt
      /\ route_answer E (trace w) txt = inl (ModelHTTPError body)
      /\ content_filtered body = false
      /\ e = ModelHTTPError body)
  \/ (exists tr stmt, exec_answer E tr stmt = Some e)
  \/ (exists tr phone message, send_answer E tr phone message = Some e)
  \/ (exists tr, knowledge_base_answer E tr m = Some e).
Proof.
  unfold Router.__call__, Router._route, Router.about,
    Router.default_response, route_run, send_message, ask_knowledge_base.
  destruct (text m) as [txt |]; [| cbv beta iota delta [log emit]; discriminate ].
  cbv beta iota zeta delta [bind try_except].
  destruct (route_answer E (trace w) txt) as [[body | msg] | intent] eqn:Hroute.
  - destruct (content_filtered body) eqn:Hfiltered.
    + cbv beta iota delta [bind log emit ret].
      destruct (send_answer E _ _ _) as [e' |] eqn:Hsend; cbn [fst]; intros H;
        [| discriminate H ].
      injection H as H. subst e'. right. right. left. eauto.
    + cbv beta iota delta [bind log emit raise]. cbn [fst]. intros H.
      injection H as H. subst e. left. exists txt, body. auto.
  - cbv beta iota delta [bind log emit ret].
    destruct (send_answer E _ _ _) as [e' |] eqn:Hsend; cbn [fst]; intros H;
      [| discriminate H ].
    injection H as H. subst e'. right. right. left. eauto.
  - destruct intent; cbv beta iota.
    + intros H. destruct (summarize_raises_only E m _ e H) as [Hq | Hsend]; auto.
    + destruct (knowledge_base_answer E _ m) as [e' |] eqn:Hkb; cbn [fst]; intros H;
        [| discriminate H ].
      injection H as H. subst e'. right. right. right. eauto.
    + destruct (send_answer E _ _ _) as [e' |] eqn:Hsend; cbn [fst]; intros H;
        [| discriminate H ].
      injection H as H. subst e'. right. right. left. eauto.
    + destruct (send_answer E _ _ _) as [e' |] eqn:Hsend; cbn [fst]; intros H;
        [| discriminate H ].
      injection H as H. subst e'. right. right. left. eauto.
Qed.

Lemma router_raises_only_rate_limited :
  fst (Router.__call__ (Examples.with_route (inl Examples.rate_limited))
         Examples.question Examples.empty_world)
  = inl Examples.rate_limited
  /\ ((exists txt body,
          text Examples.question = Some txt
          /\ route_answer (Examples.with_route (inl Examples.rate_limited))
               (trace Examples.empty_world) txt = inl (ModelHTTPError body)
          /\ content_filtered body = false
          /\ Examples.rate_limited = ModelHTTPError body)
      \/ (exists tr stmt,
             exec_answer (Examples.with_route (inl Examples.rate_limited)) tr stmt
             = Some Examples.rate_limited)
      \/ (exists tr phone message,
             send_answer (Examples.with_route (inl Examples.rate_limited)) tr phone message
             = Some Examples.rate_limited)
      \/ (exists tr,
             knowledge_base_answer (Examples.with_route (inl Examples.rate_limited)) tr
               Examples.question = Some Examples.rate_limited)).
Proof.
  split; [ reflexivity |].
  exact (router_raises_only (Examples.with_route (inl Examples.rate_limited))
           Examples.question Examples.empty_world Examples.rate_limited eq_refl).
Defined.

(** ** The watermarks over a fan-out *)




